(** * vsscale.rescale: the lazily evaluated descale / rescale / upscale graph

    A shallow embedding of [src/vsscale/rescale.py].

    The Python module never touches pixels: every call into VapourSynth,
    vskernels, vstools or vsmasktools returns a new lazy node.  A clip is
    therefore embedded as the term of calls that built it ([VideoNode]); the
    classes [RescaleBase] and [Rescale] are embedded as state-passing
    functions over records holding their instance attributes.  What the
    engine later renders for such a term (dimensions, first-plane samples,
    frame properties) is given by [width], [height], [pixel] and
    [frame_prop], which interpret the [std] primitives the module composes
    and leave resamplers and models to an oracle. *)

From Stdlib Require Import ZArith QArith String Ascii List Lia DecimalString.
From stdpp Require Import gmap strings.

Set Warnings "-register-all".
Local Open Scope string_scope.
Local Open Scope Z_scope.

(** ** Values handed to the external collaborators *)

Inductive ColorFamily := GRAY | RGB | YUV.

(** Integer sample formats ([vs.GRAY8] is [{| color_family := GRAY;
    bits_per_sample := 8 |}]). *)
Record VideoFormat := {
  color_family : ColorFamily;
  bits_per_sample : Z
}.

Definition num_planes (f : VideoFormat) : nat :=
  match color_family f with GRAY => 1 | RGB | YUV => 3 end.

Definition GRAY8 : VideoFormat := {| color_family := GRAY; bits_per_sample := 8 |}.

(** [vskernels.BorderHandling], an integer enumeration. *)
Inductive BorderHandling := MIRROR | ZERO | REPEAT.

Definition BorderHandling_value (b : BorderHandling) : Z :=
  match b with MIRROR => 0 | ZERO => 1 | REPEAT => 2 end.

(** [vstools.FieldBased], an integer enumeration. *)
Inductive FieldBased := PROGRESSIVE | BFF | TFF.

Definition FieldBased_value (f : FieldBased) : Z :=
  match f with PROGRESSIVE => 0 | BFF => 1 | TFF => 2 end.

(** A kernel object: what the module reads of it is its class name and its
    [kernel_radius]. *)
Record Kernel := {
  kernel_class_name : string;
  kernel_radius : Z
}.

Record Scaler := { scaler_class_name : string }.

(** [helpers.ScalingArgs].  [helpers.py] is not part of the sources at hand;
    the fields are the ones [rescale.py] reads and writes. *)
Module ScalingArgs.
Record t := {
  width : Z;
  height : Z;
  src_width : Q;
  src_height : Q;
  src_top : Q;
  src_left : Q;
  mode : string
}.

Definition set_mode (m : string) (a : t) : t :=
  {| width := width a; height := height a;
     src_width := src_width a; src_height := src_height a;
     src_top := src_top a; src_left := src_left a; mode := m |}.
End ScalingArgs.

(** Modelled from the spec: [ScalingArgs.kwargs] (helpers.py is absent).  The
    spec only says that the keyword arguments are produced from the current
    arguments, mode included, and optionally from a reference clip; the call
    is kept as the pair of its inputs. *)
Record Kwargs (A : Type) := {
  kw_args : ScalingArgs.t;
  kw_clip : option A
}.
Arguments kw_args {A} _.
Arguments kw_clip {A} _.

Definition kwargs {A} (self : ScalingArgs.t) (clip_or_rate : option A) : Kwargs A :=
  {| kw_args := self; kw_clip := clip_or_rate |}.

(** One operand of the [replace] part of a region expression: a constant or
    the input sample [x]. *)
Inductive Operand := Const (v : Z) | InputX.

(** External: [vsmasktools.utils._get_region_expr clip left right top bottom
    replace] builds the per-pixel expression
    [X left < X (w - (right+1)) > or Y top < Y (h - (bottom+1)) > or or replace ?],
    i.e. it selects the first operand of [replace] on the frame of the given
    thicknesses around the picture and the second operand inside. *)
Record RegionExpr := {
  re_left : Z;
  re_xmax : Z;
  re_top : Z;
  re_ymax : Z;
  re_border : Operand;
  re_inside : Operand
}.

(** ** Clips as terms of engine calls *)

Inductive VideoNode :=
  (** a clip supplied by the caller; [None] is a variable format and a zero
      dimension a variable resolution *)
| Source (name : string) (format : option VideoFormat) (w h : Z)
  (** [vstools.plane] / [std.ShufflePlanes(clip, i, GRAY)] *)
| ShufflePlanes (clip : VideoNode) (plane : nat)
  (** [vstools.join] *)
| Join (planes : list VideoNode)
| Crop (clip : VideoNode) (left right top bottom : Z)
| AddBorders (clip : VideoNode) (left right top bottom : Z)
| BlankClip (clip : VideoNode) (color : option Z) (format : option VideoFormat)
| MaskedMerge (clipa clipb mask : VideoNode)
| CopyFrameProps (clip prop_src : VideoNode)
| SetFrameProp (clip : VideoNode) (prop data : string)
  (** [vsexprtools.norm_expr] on a region expression *)
| NormExpr (clip : VideoNode) (expr : RegionExpr)
  (** [vstools.depth] *)
| Depth (clip : VideoNode) (bits : Z)
| KernelDescale (k : Kernel) (clip : VideoNode) (w h : option Z)
    (kw : Kwargs VideoNode) (border_handling : BorderHandling)
    (ignore_mask : option VideoNode)
| KernelScale (k : Kernel) (clip : VideoNode) (w h : Z)
    (kw : Kwargs VideoNode) (border_handling : BorderHandling)
  (** [Point.scale(clip, height=h)] *)
| PointScale (clip : VideoNode) (w h : option Z)
| ScalerMulti (s : Scaler) (clip : VideoNode) (multi : Z)
| ScalerScale (s : Scaler) (clip : VideoNode) (w h : Z) (kw : Kwargs VideoNode)
  (** [FieldBased.apply], which only marks the frames *)
| FieldBasedApply (fb : FieldBased) (clip : VideoNode).

(** [clip.width] and [clip.height], of the first plane.  A resampler returns
    the dimensions it was asked for, and the input's on an axis left [None]. *)
Fixpoint width (c : VideoNode) : Z :=
  match c with
  | Source _ _ w _ => w
  | Join [] => 0
  | Join (p :: _) => width p
  | Crop c l r _ _ => width c - l - r
  | AddBorders c l r _ _ => width c + l + r
  | MaskedMerge a _ _ => width a
  | KernelDescale _ c w _ _ _ _ => match w with Some w => w | None => width c end
  | KernelScale _ _ w _ _ _ => w
  | PointScale c w _ => match w with Some w => w | None => width c end
  | ScalerMulti _ c m => width c * m
  | ScalerScale _ _ w _ _ => w
  | ShufflePlanes c _ | BlankClip c _ _ | CopyFrameProps c _
  | SetFrameProp c _ _ | NormExpr c _ | Depth c _ | FieldBasedApply _ c => width c
  end.

Fixpoint height (c : VideoNode) : Z :=
  match c with
  | Source _ _ _ h => h
  | Join [] => 0
  | Join (p :: _) => height p
  | Crop c _ _ t b => height c - t - b
  | AddBorders c _ _ t b => height c + t + b
  | MaskedMerge a _ _ => height a
  | KernelDescale _ c _ h _ _ _ => match h with Some h => h | None => height c end
  | KernelScale _ _ _ h _ _ => h
  | PointScale c _ h => match h with Some h => h | None => height c end
  | ScalerMulti _ c m => height c * m
  | ScalerScale _ _ _ h _ => h
  | ShufflePlanes c _ | BlankClip c _ _ | CopyFrameProps c _
  | SetFrameProp c _ _ | NormExpr c _ | Depth c _ | FieldBasedApply _ c => height c
  end.

(** [clip.format]. *)
Fixpoint format (c : VideoNode) : option VideoFormat :=
  match c with
  | Source _ f _ _ => f
  | ShufflePlanes c _ =>
      match format c with
      | Some f => Some {| color_family := GRAY; bits_per_sample := bits_per_sample f |}
      | None => None
      end
  | Join [] => None
  | Join (p :: _) => format p
  | BlankClip c _ (Some f) => Some f
  | BlankClip c _ None => format c
  | Depth c b =>
      match format c with
      | Some f => Some {| color_family := color_family f; bits_per_sample := b |}
      | None => None
      end
  | MaskedMerge a _ _ => format a
  | Crop c _ _ _ _ | AddBorders c _ _ _ _ | CopyFrameProps c _
  | SetFrameProp c _ _ | NormExpr c _ | KernelDescale _ c _ _ _ _ _
  | KernelScale _ c _ _ _ _ | PointScale c _ _ | ScalerMulti _ c _
  | ScalerScale _ c _ _ _ | FieldBasedApply _ c => format c
  end.

Definition bits (c : VideoNode) : Z :=
  match format c with Some f => bits_per_sample f | None => 0 end.

(** [get_peak_value(clip, False, ColorRange.FULL)] for an integer format. *)
Definition get_peak_value (c : VideoNode) : Z := 2 ^ bits c - 1.

(** [vstools.plane], [vstools.get_y] and [vstools.split]: a single-plane
    clip is returned as it is. *)
Definition plane (c : VideoNode) (i : nat) : VideoNode :=
  match format c with
  | Some f => if (Nat.eqb (num_planes f) 1 && Nat.eqb i 0)%bool then c else ShufflePlanes c i
  | None => ShufflePlanes c i
  end.

Definition get_y (c : VideoNode) : VideoNode := plane c 0.

Definition split (c : VideoNode) : list VideoNode :=
  match format c with
  | Some f => if Nat.eqb (num_planes f) 1 then [c] else map (ShufflePlanes c) (seq 0 (num_planes f))
  | None => []
  end.

Definition _get_region_expr (clip : VideoNode) (left right top bottom : Z)
    (replace : Operand * Operand) : RegionExpr :=
  let right := right + 1 in
  let bottom := bottom + 1 in
  {| re_left := left; re_xmax := width clip - right;
     re_top := top; re_ymax := height clip - bottom;
     re_border := fst replace; re_inside := snd replace |}.

(** ** What the engine renders *)

(** [std.MaskedMerge] on integer samples: the weighted mean of the two
    samples with weight [m / peak], rounded to nearest. *)
Definition merge_sample (peak a b m : Z) : Z :=
  (a * (peak - m) + b * m + peak / 2) / peak.

Definition in_region_border (e : RegionExpr) (x y : Z) : bool :=
  ((x <? re_left e) || (re_xmax e <? x) || ((y <? re_top e) || (re_ymax e <? y)))%bool.

Definition operand_value (o : Operand) (x : Z) : Z :=
  match o with Const v => v | InputX => x end.

Section Render.
  (** The samples of the nodes this module does not compose itself (sources,
      resamplers, the doubling model, bit-depth conversion). *)
Variable engine : VideoNode -> Z -> Z -> Z.

  (** The first-plane sample at column [x] and row [y]. *)
Fixpoint pixel (c : VideoNode) (x y : Z) : Z :=
    match c with
    | Join (p :: _) => pixel p x y
    | ShufflePlanes c' O => pixel c' x y
    | Crop c' l _ t _ => pixel c' (x + l) (y + t)
    | AddBorders c' l _ t _ =>
        if ((l <=? x) && (x <? l + width c') && (t <=? y) && (y <? t + height c'))%bool
        then pixel c' (x - l) (y - t) else 0
    | BlankClip _ color _ => match color with Some v => v | None => 0 end
    | MaskedMerge a b m =>
        merge_sample (get_peak_value m) (pixel a x y) (pixel b x y) (pixel m x y)
    | CopyFrameProps c' _ | SetFrameProp c' _ _ | FieldBasedApply _ c' => pixel c' x y
    | NormExpr c' e =>
        operand_value (if in_region_border e x y then re_border e else re_inside e)
                      (pixel c' x y)
    | _ => engine c x y
    end.
End Render.

(** The value of a frame property, for the properties this module sets.
    Filters keep the properties of their first input; [CopyFrameProps]
    takes those of its second. *)
Fixpoint frame_prop (c : VideoNode) (key : string) : option string :=
  match c with
  | Source _ _ _ _ => None
  | Join [] => None
  | Join (p :: _) => frame_prop p key
  | SetFrameProp c' k d => if String.eqb k key then Some d else frame_prop c' key
  | CopyFrameProps _ src => frame_prop src key
  | MaskedMerge a _ _ => frame_prop a key
  | ShufflePlanes c' _ | Crop c' _ _ _ _ | AddBorders c' _ _ _ _ | BlankClip c' _ _
  | NormExpr c' _ | Depth c' _ | KernelDescale _ c' _ _ _ _ _
  | KernelScale _ c' _ _ _ _ | PointScale c' _ _ | ScalerMulti _ c' _
  | ScalerScale _ c' _ _ _ | FieldBasedApply _ c' => frame_prop c' key
  end.

(** ** The Python runtime the module relies on *)

Inductive Exception :=
| AttributeError
| RecursionError
| ValueError
| VariableFormatError      (* vstools, a [ValueError] *)
| VariableResolutionError  (* vstools, a [ValueError] *)
| ExternalError (what : string).

(** [VariableFormatError] and [VariableResolutionError] derive from
    [CustomValueError], itself a [ValueError]: the invalid-input errors. *)
Definition is_invalid_input (e : Exception) : bool :=
  match e with
  | ValueError | VariableFormatError | VariableResolutionError => true
  | _ => false
  end.

Inductive Result (A : Type) :=
| Ok (a : A)
| Error (e : Exception).
Arguments Ok {A} _.
Arguments Error {A} _.

(** Truth value testing.  A [VideoNode] has at least one frame, so that only
    [None] is false among [VideoNode | None]; an integer enumeration member
    is false when its value is zero. *)
Class Truthy (A : Type) := truthy : A -> bool.

#[export] Instance truthy_option_clip : Truthy (option VideoNode) :=
  fun o => match o with Some _ => true | None => false end.

#[export] Instance truthy_border_handling : Truthy BorderHandling :=
  fun b => negb (BorderHandling_value b =? 0).

#[export] Instance truthy_field_based : Truthy (option FieldBased) :=
  fun o => match o with Some f => negb (FieldBased_value f =? 0) | None => false end.

(** [BorderHandling(int(border_handling))].  The enumeration belongs to
    vskernels; its members are 0, 1 and 2.  For any other integer the call
    raises, and which exception it raises is decided by the enumeration's own
    lookup of missing values, outside this module: it is kept opaque. *)
Definition BorderHandling_of_int (v : Z) : Result BorderHandling :=
  if v =? 0 then Ok MIRROR
  else if v =? 1 then Ok ZERO
  else if v =? 2 then Ok REPEAT
  else Error (ExternalError "BorderHandling").

(** Comparison of tuples of integers, first difference first. *)
Fixpoint tuple_gt (a b : list Z) : bool :=
  match a, b with
  | x :: a', y :: b' => if x =? y then tuple_gt a' b' else y <? x
  | _ :: _, [] => true
  | [], _ => false
  end.

(** [str.split(sep)[-1]] for a one-character separator. *)
Fixpoint split_last (sep : ascii) (s acc : string) : string :=
  match s with
  | EmptyString => acc
  | String c s' =>
      if Ascii.eqb c sep then split_last sep s' EmptyString
      else split_last sep s' (acc +:+ String c EmptyString)
  end.

Definition upper (c : ascii) : ascii :=
  let n := nat_of_ascii c in
  if (Nat.leb 97 n && Nat.leb n 122)%bool then ascii_of_nat (n - 32) else c.

Definition lower (c : ascii) : ascii :=
  let n := nat_of_ascii c in
  if (Nat.leb 65 n && Nat.leb n 90)%bool then ascii_of_nat (n + 32) else c.

Fixpoint map_string (f : ascii -> ascii) (s : string) : string :=
  match s with
  | EmptyString => EmptyString
  | String c s' => String (f c) (map_string f s')
  end.

(** [str.capitalize]. *)
Definition capitalize (s : string) : string :=
  match s with
  | EmptyString => EmptyString
  | String c s' => String (upper c) (map_string lower s')
  end.

(** [f"{n}"] for an integer. *)
Definition str_int (n : Z) : string := NilZero.string_of_int (Z.to_int n).

(** [float.is_integer] and [int(d)] (truncation towards zero), on the exact
    value of the float. *)
Definition is_integer (d : Q) : bool := Z.rem (Qnum d) (Zpos (Qden d)) =? 0.

Definition int (d : Q) : Z := Z.quot (Qnum d) (Zpos (Qden d)).

(** The integer nearest to [n / m] for [0 <= n], ties to even. *)
Definition round_half_even (n : Z) (m : positive) : Z :=
  let q := n / Zpos m in
  let r := n mod Zpos m in
  if 2 * r <? Zpos m then q
  else if Zpos m <? 2 * r then q + 1
  else if Z.even q then q else q + 1.

Definition two_digits (k : Z) : string :=
  if k <? 10 then "0" +:+ str_int k else str_int k.

(** [f"{d:.2f}"]: the value rounded to hundredths, always with two digits
    after the point. *)
Definition format_2f (d : Q) : string :=
  let hundredths := round_half_even (Z.abs (Qnum d) * 100) (Qden d) in
  (if Qnum d <? 0 then "-" else "")
    +:+ str_int (hundredths / 100) +:+ "." +:+ two_digits (hundredths mod 100).

(** A function object: what [functools.wraps] carries over is its name. *)
Record PyFunction (T : Type) := {
  __name__ : string;
  call : T -> VideoNode -> VideoNode * T
}.
Arguments __name__ {T} _.
Arguments call {T} _ _ _.

(** [vstools.check_variable]: the format first, then the resolution. *)
Definition check_variable (clip : VideoNode) : Result unit :=
  match format clip with
  | None => Error VariableFormatError
  | Some _ =>
      if ((width clip =? 0) || (height clip =? 0))%bool
      then Error VariableResolutionError else Ok tt
  end.

(** [clip.std.Crop(left, right, top, bottom)] as a call that can fail: the
    engine raises its own error for a negative amount and for a crop that
    leaves no column or no row of the frame. *)
Definition std_Crop (clip : VideoNode) (left right top bottom : Z) : Result VideoNode :=
  if ((0 <=? left) && (0 <=? right) && (0 <=? top) && (0 <=? bottom)
      && (0 <? width clip - left - right) && (0 <? height clip - top - bottom))%bool
  then Ok (Crop clip left right top bottom)
  else Error (ExternalError "vapoursynth.Error").

(** ** class RescaleBase *)

Module RescaleBase.

(** The instance attributes.  [__dict__] holds the entries that
    [functools.cached_property] stores under the property's name;
    [descale_args] is declared by the class and assigned by the subclass. *)
Record t := {
  clipy : VideoNode;
  chroma : list VideoNode;
  kernel : Kernel;
  upscaler : Scaler;
  downscaler : Scaler;
  field_based : option FieldBased;
  border_handling : BorderHandling;
  descale_args : ScalingArgs.t;
  __dict__ : gmap string VideoNode
}.

Definition set_clipy (c : VideoNode) (a : t) : t :=
  {| clipy := c; chroma := chroma a; kernel := kernel a; upscaler := upscaler a;
     downscaler := downscaler a; field_based := field_based a;
     border_handling := border_handling a; descale_args := descale_args a;
     __dict__ := __dict__ a |}.

Definition set_descale_args (d : ScalingArgs.t) (a : t) : t :=
  {| clipy := clipy a; chroma := chroma a; kernel := kernel a; upscaler := upscaler a;
     downscaler := downscaler a; field_based := field_based a;
     border_handling := border_handling a; descale_args := d;
     __dict__ := __dict__ a |}.

Definition set___dict__ (m : gmap string VideoNode) (a : t) : t :=
  {| clipy := clipy a; chroma := chroma a; kernel := kernel a; upscaler := upscaler a;
     downscaler := downscaler a; field_based := field_based a;
     border_handling := border_handling a; descale_args := descale_args a;
     __dict__ := m |}.

(** An object of the class or of a subclass: it has the attributes above. *)
Class Self (T : Type) := {
  attrs : T -> t;
  with_attrs : t -> T -> T;
  attrs_with_attrs : forall a s, attrs (with_attrs a s) = a
}.

Section Decorators.
Context {T : Type} `{Self T}.

(** [_apply_field_based] (lines 67-77). *)
Definition _apply_field_based (function : PyFunction T) : PyFunction T :=
  {| __name__ := __name__ function;
     call := fun self clip =>
       if truthy (field_based (attrs self)) then
         let clip :=
           match field_based (attrs self) with
           | Some fb => FieldBasedApply fb clip
           | None => clip
           end in
         let '(clip, self) := call function self clip in
         (FieldBasedApply PROGRESSIVE clip, self)
       else call function self clip |}.

(** The rendering of one dimension in [_add_props] (line 84). *)
Definition format_dimension (d : Q) : string :=
  if is_integer d then str_int (int d) else format_2f d.

(** The name of the property [_add_props] sets (line 88). *)
Definition prop_name (function_name : string) : string :=
  "Rescale" +:+ capitalize (split_last "_"%char function_name EmptyString) +:+ "From".

(** [_add_props] (lines 79-91). *)
Definition _add_props (function : PyFunction T) : PyFunction T :=
  {| __name__ := __name__ function;
     call := fun self clip =>
       let w := format_dimension (ScalingArgs.src_width (descale_args (attrs self))) in
       let h := format_dimension (ScalingArgs.src_height (descale_args (attrs self))) in
       let '(out, self) := call function self clip in
       (SetFrameProp out (prop_name (__name__ function))
          (kernel_class_name (kernel (attrs self)) +:+ " - " +:+ w +:+ " x " +:+ h),
        self) |}.

(** The four generators as [RescaleBase] defines them (lines 93-123). *)
Definition _generate_descale : PyFunction T :=
  _add_props (_apply_field_based
    {| __name__ := "_generate_descale";
       call := fun self clip =>
         (KernelDescale (kernel (attrs self)) clip
            (Some (ScalingArgs.width (descale_args (attrs self))))
            (Some (ScalingArgs.height (descale_args (attrs self))))
            (kwargs (descale_args (attrs self)) None)
            (border_handling (attrs self)) None,
          self) |}).

Definition _generate_rescale : PyFunction T :=
  _add_props (_apply_field_based
    {| __name__ := "_generate_rescale";
       call := fun self clip =>
         (KernelScale (kernel (attrs self)) clip
            (width (clipy (attrs self))) (height (clipy (attrs self)))
            (kwargs (descale_args (attrs self)) None)
            (border_handling (attrs self)),
          self) |}).

Definition _generate_doubled : PyFunction T :=
  _add_props
    {| __name__ := "_generate_doubled";
       call := fun self clip => (ScalerMulti (upscaler (attrs self)) clip 2, self) |}.

Definition _generate_upscale : PyFunction T :=
  _add_props
    {| __name__ := "_generate_upscale";
       call := fun self clip =>
         (ScalerScale (downscaler (attrs self)) clip
            (width (clipy (attrs self))) (height (clipy (attrs self)))
            (kwargs (descale_args (attrs self)) (Some clip)),
          self) |}.

End Decorators.

(** Method resolution: what [self._generate_descale] and the like denote for
    an object of class [T]. *)
Class Methods (T : Type) `{Self T} := {
  self_generate_descale : T -> VideoNode -> VideoNode * T;
  self_generate_rescale : T -> VideoNode -> VideoNode * T;
  self_generate_doubled : T -> VideoNode -> VideoNode * T;
  self_generate_upscale : T -> VideoNode -> VideoNode * T
}.

Section Properties.
Context {T : Type} `{Methods T}.

(** [functools.cached_property.__get__]: the entry of [__dict__] if there is
    one, otherwise the function's result, stored before it is returned. *)
Definition cached_property (attrname : string) (func : T -> VideoNode * T)
    (self : T) : VideoNode * T :=
  match __dict__ (attrs self) !! attrname with
  | Some val => (val, self)
  | None =>
      let '(val, self) := func self in
      (val, with_attrs (set___dict__ (<[attrname := val]> (__dict__ (attrs self)))
                          (attrs self)) self)
  end.

(** The four properties (lines 125-143). *)
Definition descale : T -> VideoNode * T :=
  cached_property "descale"
    (fun self => self_generate_descale self (clipy (attrs self))).

Definition rescale : T -> VideoNode * T :=
  cached_property "rescale"
    (fun self => let '(d, self) := descale self in self_generate_rescale self d).

Definition doubled : T -> VideoNode * T :=
  cached_property "doubled"
    (fun self => let '(d, self) := descale self in self_generate_doubled self d).

Definition upscale : T -> VideoNode * T :=
  cached_property "upscale"
    (fun self =>
       let '(d, self) := doubled self in
       let '(u, self) := self_generate_upscale self d in
       (Join (u :: chroma (attrs self)), self)).

(** [_trydelattr] (lines 61-65), over the builtin it calls. *)
Definition _trydelattr (delattr : T -> string -> Result unit * T)
    (self : T) (attr : string) : Result unit * T :=
  match delattr self attr with
  | (Error AttributeError, self) => (Ok tt, self)
  | r => r
  end.

(** [__delattr__] (lines 50-59).

    The builtin [delattr(self, name)] is [del self.name]: it calls
    [type(self).__delattr__(self, name)], which is this very method, since
    the class defines it; [object.__delattr__], which would remove the entry
    from [__dict__], is never reached.  [depth] is the number of frames left
    before the interpreter's recursion limit, where [RecursionError] is
    raised. *)
Fixpoint __delattr__ (depth : nat) (self : T) (__name : string) : Result unit * T :=
  match depth with
  | O => (Error RecursionError, self)
  | S depth =>
      let delattr := __delattr__ depth in
      let '(r, self) :=
        if String.eqb __name "descale" then
          match _trydelattr delattr self "rescale" with
          | (Ok _, self) => _trydelattr delattr self "doubled"
          | r => r
          end
        else if String.eqb __name "doubled" then
          _trydelattr delattr self "upscale"
        else (Ok tt, self) in
      match r with
      | Ok _ => delattr self __name
      | Error e => (Error e, self)
      end
  end.

End Properties.

(** The seven attributes [__init__] assigns (lines 38-48).  It neither
    receives nor assigns [descale_args]: an object has that attribute only
    when a subclass has assigned it. *)
Record assigned := {
  assigned_clipy : VideoNode;
  assigned_chroma : list VideoNode;
  assigned_kernel : Kernel;
  assigned_upscaler : Scaler;
  assigned_downscaler : Scaler;
  assigned_field_based : option FieldBased;
  assigned_border_handling : BorderHandling
}.

(** [__init__] (lines 26-48), for a kernel and scalers given as objects and
    a field order given as a member or [None], which [Kernel.ensure_obj],
    [Scaler.ensure_obj] and [FieldBased.from_param] return as they are. *)
Definition __init__ (clip : VideoNode)
    (kernel : Kernel) (upscaler downscaler : Scaler)
    (field_based : option FieldBased) (border_handling : Z) : Result assigned :=
  match check_variable clip with
  | Error e => Error e
  | Ok _ =>
      match split clip with
      | [] => Error ValueError
      | clipy :: chroma =>
          match BorderHandling_of_int border_handling with
          | Error e => Error e
          | Ok bh =>
              Ok {| assigned_clipy := clipy; assigned_chroma := chroma;
                    assigned_kernel := kernel; assigned_upscaler := upscaler;
                    assigned_downscaler := downscaler;
                    assigned_field_based := field_based;
                    assigned_border_handling := bh |}
          end
      end
  end.

#[global] Instance self_t : Self t :=
  {| attrs := fun a => a; with_attrs := fun a _ => a;
     attrs_with_attrs := fun _ _ => eq_refl |}.

#[global] Instance methods_t : Methods t :=
  {| self_generate_descale := call _generate_descale;
     self_generate_rescale := call _generate_rescale;
     self_generate_doubled := call _generate_doubled;
     self_generate_upscale := call _generate_upscale |}.

End RescaleBase.

(** ** class Rescale(RescaleBase) *)

(** [int | float]. *)
Inductive Number := Int (n : Z) | Float (q : Q).

(** [helpers.CropRel], a named tuple of four integers. *)
Record CropRel := {
  crop_left : Z;
  crop_right : Z;
  crop_top : Z;
  crop_bottom : Z
}.

Definition crop_tuple (c : CropRel) : list Z :=
  [crop_left c; crop_right c; crop_top c; crop_bottom c].

(** The signature of [ScalingArgs.from_args] as line 194 calls it; the
    function itself lives in helpers.py and is a parameter of [__init__]. *)
Definition from_args_t : Type :=
  VideoNode -> Number -> option Number -> option Z -> option Z ->
  Q -> Q -> CropRel -> string -> Result ScalingArgs.t.

Module Rescale.
Import RescaleBase.

Record t := {
  base : RescaleBase.t;
  _line_mask : option VideoNode;
  _credit_mask : option VideoNode;
  _ignore_mask : option VideoNode;
  _crop : CropRel;
  _pre : VideoNode
}.

Definition set_base (b : RescaleBase.t) (s : t) : t :=
  {| base := b; _line_mask := _line_mask s; _credit_mask := _credit_mask s;
     _ignore_mask := _ignore_mask s; _crop := _crop s; _pre := _pre s |}.

Definition set__line_mask (m : option VideoNode) (s : t) : t :=
  {| base := base s; _line_mask := m; _credit_mask := _credit_mask s;
     _ignore_mask := _ignore_mask s; _crop := _crop s; _pre := _pre s |}.

Definition set__credit_mask (m : option VideoNode) (s : t) : t :=
  {| base := base s; _line_mask := _line_mask s; _credit_mask := m;
     _ignore_mask := _ignore_mask s; _crop := _crop s; _pre := _pre s |}.

Definition set__ignore_mask (m : option VideoNode) (s : t) : t :=
  {| base := base s; _line_mask := _line_mask s; _credit_mask := _credit_mask s;
     _ignore_mask := m; _crop := _crop s; _pre := _pre s |}.

(** [self.descale_args.mode = m]. *)
Definition set_mode (m : string) (s : t) : t :=
  set_base (set_descale_args (ScalingArgs.set_mode m (descale_args (base s))) (base s)) s.

#[global] Instance self_t : Self t :=
  {| attrs := base; with_attrs := set_base;
     attrs_with_attrs := fun _ _ => eq_refl |}.

(** [__init__] (lines 151-199).  The object starts with an empty
    [__dict__]; [descale_args] is assigned at line 194, from the clip as it
    was passed, before [super().__init__] checks that clip at line 196; the
    luma is cropped last (lines 198-199), by a call the engine can refuse. *)
Definition __init__ (from_args : from_args_t) (clip : VideoNode) (height : Number)
    (kernel : Kernel) (upscaler downscaler : Scaler)
    (width : option Number) (base_height base_width : option Z)
    (crop : CropRel) (shift : Q * Q)
    (field_based : option FieldBased) (border_handling : Z) : Result t :=
  match from_args clip height width base_height base_width
          (fst shift) (snd shift) crop "hw" with
  | Error e => Error e
  | Ok descale_args =>
      match RescaleBase.__init__ clip kernel upscaler downscaler
              field_based border_handling with
      | Error e => Error e
      | Ok a =>
          let self :=
            {| base :=
                 {| clipy := assigned_clipy a; chroma := assigned_chroma a;
                    kernel := assigned_kernel a; upscaler := assigned_upscaler a;
                    downscaler := assigned_downscaler a;
                    field_based := assigned_field_based a;
                    border_handling := assigned_border_handling a;
                    descale_args := descale_args; __dict__ := ∅ |};
               _line_mask := None; _credit_mask := None;
               _ignore_mask := None; _crop := crop; _pre := clip |} in
          if tuple_gt (crop_tuple (_crop self)) [0; 0; 0; 0] then
            match std_Crop (clipy (base self))
                    (crop_left (_crop self)) (crop_right (_crop self))
                    (crop_top (_crop self)) (crop_bottom (_crop self)) with
            | Error e => Error e
            | Ok cropped => Ok (set_base (set_clipy cropped (base self)) self)
            end
          else Ok self
      end
  end.

(** The body of [_generate_descale_ignore_mask] (lines 207-232); [im] is
    [self._ignore_mask], which the enclosing method has just tested and the
    assertion of line 208 confirms. *)
Definition _generate_descale_ignore_mask (im : VideoNode) : PyFunction t :=
  {| __name__ := "_generate_descale_ignore_mask";
     call := fun self clip =>
       let self := set_mode "h" self in
       let descale_h :=
         KernelDescale (kernel (base self)) clip
           None (Some (ScalingArgs.height (descale_args (base self))))
           (kwargs (descale_args (base self)) None)
           (border_handling (base self)) (Some im) in
       let self := set_mode "w" self in
       let descale_w :=
         KernelDescale (kernel (base self)) descale_h
           (Some (ScalingArgs.width (descale_args (base self)))) None
           (kwargs (descale_args (base self)) None)
           (border_handling (base self))
           (Some (PointScale im None (Some (height descale_h)))) in
       let self := set_mode "hw" self in
       (descale_w, self) |}.

(** [_generate_descale] (lines 201-234). *)
Definition _generate_descale (self : t) (clip : VideoNode) : VideoNode * t :=
  match _ignore_mask self with
  | None => call RescaleBase._generate_descale self clip
  | Some im =>
      call (_add_props (_apply_field_based (_generate_descale_ignore_mask im))) self clip
  end.

(** The [line_mask] property (lines 254-264). *)
Definition line_mask (self : t) : VideoNode * t :=
  let lm :=
    match _line_mask self with
    | Some m => m
    | None => BlankClip (clipy (base self)) (Some (get_peak_value (clipy (base self)))) None
    end in
  let lm :=
    if truthy (border_handling (base self)) then
      let px := kernel_radius (kernel (base self)) in
      NormExpr lm (_get_region_expr lm px px px px (Const (get_peak_value lm), InputX))
    else lm in
  let self := set__line_mask (Some lm) self in
  (lm, self).

(** The setters of the three masks (lines 266-268, 281-283 and 296-298). *)
Definition set_line_mask (mask : option VideoNode) (self : t) : t :=
  set__line_mask
    (match mask with Some m => Some (Depth m (bits (clipy (base self)))) | None => None end)
    self.

Definition set_credit_mask (mask : option VideoNode) (self : t) : t :=
  set__credit_mask
    (match mask with Some m => Some (Depth m (bits (clipy (base self)))) | None => None end)
    self.

Definition set_ignore_mask (mask : option VideoNode) (self : t) : t :=
  set__ignore_mask
    (match mask with Some m => Some (Depth m 8) | None => None end)
    self.

(** The [credit_mask] property (lines 274-279): the mask if there is one,
    otherwise a blank clip, assigned through the setter and read back. *)
Definition credit_mask (self : t) : VideoNode * t :=
  match _credit_mask self with
  | Some m => (m, self)
  | None =>
      let self := set_credit_mask (Some (BlankClip (clipy (base self)) None None)) self in
      match _credit_mask self with
      | Some m => (m, self)
      | None => (BlankClip (clipy (base self)) None None, self)
      end
  end.

(** The [ignore_mask] property (lines 289-294). *)
Definition ignore_mask (self : t) : VideoNode * t :=
  match _ignore_mask self with
  | Some m => (m, self)
  | None =>
      let self :=
        set_ignore_mask (Some (BlankClip (clipy (base self)) None (Some GRAY8))) self in
      match _ignore_mask self with
      | Some m => (m, self)
      | None => (BlankClip (clipy (base self)) None (Some GRAY8), self)
      end
  end.

(** [_generate_upscale] (lines 236-252), one definition for each of its
    three conditional statements. *)

(** Lines 239-240. *)
Definition merge_line_mask (upscale : VideoNode) (self : t) : VideoNode * t :=
  if (truthy (_line_mask self) || truthy (border_handling (base self)))%bool then
    let clipa := clipy (base self) in
    let '(lm, self) := line_mask self in
    (CopyFrameProps (MaskedMerge clipa upscale lm) upscale, self)
  else (upscale, self).

(** Lines 242-243. *)
Definition merge_credit_mask (upscale : VideoNode) (self : t) : VideoNode * t :=
  if truthy (_credit_mask self) then
    let clipb := clipy (base self) in
    let '(cm, self) := credit_mask self in
    (MaskedMerge upscale clipb cm, self)
  else (upscale, self).

(** Lines 245-250. *)
Definition restore_crop (upscale : VideoNode) (self : t) : VideoNode :=
  if tuple_gt (crop_tuple (_crop self)) [0; 0; 0; 0] then
    let pre_y := get_y (_pre self) in
    let black := BlankClip pre_y None None in
    let mask :=
      NormExpr black
        (_get_region_expr black
           (crop_left (_crop self)) (crop_right (_crop self))
           (crop_top (_crop self)) (crop_bottom (_crop self))
           (Const (get_peak_value black), InputX)) in
    MaskedMerge
      (AddBorders upscale
         (crop_left (_crop self)) (crop_right (_crop self))
         (crop_top (_crop self)) (crop_bottom (_crop self)))
      pre_y mask
  else upscale.

Definition _generate_upscale (self : t) (clip : VideoNode) : VideoNode * t :=
  let '(upscale, self) := call RescaleBase._generate_upscale self clip in
  let '(upscale, self) := merge_line_mask upscale self in
  let '(upscale, self) := merge_credit_mask upscale self in
  let upscale := restore_crop upscale self in
  (upscale, self).

#[global] Instance methods_t : Methods t :=
  {| self_generate_descale := _generate_descale;
     self_generate_rescale := call RescaleBase._generate_rescale;
     self_generate_doubled := call RescaleBase._generate_doubled;
     self_generate_upscale := _generate_upscale |}.

(** The statements [del self.line_mask], [del self.credit_mask] and
    [del self.ignore_mask].  Like every [del] on the object they call
    [type(self).__delattr__], which is the [__delattr__] that [RescaleBase]
    defines (lines 50-59).  The deleters of lines 270-272, 285-287 and
    300-302 belong to the properties, which only [object.__delattr__] would
    consult; that method is never reached. *)
Definition del_line_mask (depth : nat) (self : t) : Result unit * t :=
  __delattr__ depth self "line_mask".

Definition del_credit_mask (depth : nat) (self : t) : Result unit * t :=
  __delattr__ depth self "credit_mask".

Definition del_ignore_mask (depth : nat) (self : t) : Result unit * t :=
  __delattr__ depth self "ignore_mask".

End Rescale.

(** ** Concrete inputs *)

Module Example.

Definition YUV420P8 : VideoFormat := {| color_family := YUV; bits_per_sample := 8 |}.

Definition clip : VideoNode := Source "clip" (Some YUV420P8) 1920 1080.

Definition variable_clip : VideoNode := Source "variable" None 0 0.

Definition bicubic : Kernel := {| kernel_class_name := "Bicubic"; kernel_radius := 2 |}.
Definition artcnn : Scaler := {| scaler_class_name := "ArtCNN" |}.
Definition hermite : Scaler := {| scaler_class_name := "Hermite" |}.

(** A fractional descale to 1272 x 715.5 and an integer one to 1280 x 720. *)
Definition args_715_5 : ScalingArgs.t :=
  {| ScalingArgs.width := 1272; ScalingArgs.height := 716;
     ScalingArgs.src_width := 1272 # 1; ScalingArgs.src_height := 1431 # 2;
     ScalingArgs.src_top := 0 # 1; ScalingArgs.src_left := 0 # 1;
     ScalingArgs.mode := "hw" |}.

Definition args_720 : ScalingArgs.t :=
  {| ScalingArgs.width := 1280; ScalingArgs.height := 720;
     ScalingArgs.src_width := 1280 # 1; ScalingArgs.src_height := 720 # 1;
     ScalingArgs.src_top := 0 # 1; ScalingArgs.src_left := 0 # 1;
     ScalingArgs.mode := "hw" |}.

(** A stand-in for [ScalingArgs.from_args] that answers with fixed
    arguments in the requested mode. *)
Definition from_args (a : ScalingArgs.t) : from_args_t :=
  fun _ _ _ _ _ _ _ _ mode => Ok (ScalingArgs.set_mode mode a).

(** A stand-in for [ScalingArgs.from_args] that divides by the height of
    the clip it is given, and so fails on a clip of height zero with an
    error of its own, before it answers with fixed arguments. *)
Definition from_args_dividing (a : ScalingArgs.t) : from_args_t :=
  fun clip _ _ _ _ _ _ _ mode =>
    if height clip =? 0 then Error (ExternalError "ZeroDivisionError")
    else Ok (ScalingArgs.set_mode mode a).

Definition no_crop : CropRel :=
  {| crop_left := 0; crop_right := 0; crop_top := 0; crop_bottom := 0 |}.

Definition crop_4_6_2_8 : CropRel :=
  {| crop_left := 4; crop_right := 6; crop_top := 2; crop_bottom := 8 |}.

(** A crop that leaves no column of the 1920 x 1080 frame. *)
Definition crop_too_wide : CropRel :=
  {| crop_left := 2000; crop_right := 1; crop_top := 1; crop_bottom := 1 |}.

(** [Rescale(clip, 720, Bicubic)]. *)
Definition fresh : Rescale.t :=
  {| Rescale.base :=
       {| RescaleBase.clipy := ShufflePlanes clip 0;
          RescaleBase.chroma := [ShufflePlanes clip 1; ShufflePlanes clip 2];
          RescaleBase.kernel := bicubic;
          RescaleBase.upscaler := artcnn;
          RescaleBase.downscaler := hermite;
          RescaleBase.field_based := None;
          RescaleBase.border_handling := MIRROR;
          RescaleBase.descale_args := args_720;
          RescaleBase.__dict__ := ∅ |};
     Rescale._line_mask := None;
     Rescale._credit_mask := None;
     Rescale._ignore_mask := None;
     Rescale._crop := no_crop;
     Rescale._pre := clip |}.

(** [Rescale(clip, 720, Bicubic, crop=(4, 6, 2, 8))]. *)
Definition cropped : Rescale.t :=
  {| Rescale.base :=
       {| RescaleBase.clipy := Crop (ShufflePlanes clip 0) 4 6 2 8;
          RescaleBase.chroma := [ShufflePlanes clip 1; ShufflePlanes clip 2];
          RescaleBase.kernel := bicubic;
          RescaleBase.upscaler := artcnn;
          RescaleBase.downscaler := hermite;
          RescaleBase.field_based := None;
          RescaleBase.border_handling := MIRROR;
          RescaleBase.descale_args := args_720;
          RescaleBase.__dict__ := ∅ |};
     Rescale._line_mask := None;
     Rescale._credit_mask := None;
     Rescale._ignore_mask := None;
     Rescale._crop := crop_4_6_2_8;
     Rescale._pre := clip |}.

(** The same object after [upscale] and [rescale] have been read: the four
    entries are cached. *)
Definition all_cached : Rescale.t :=
  snd (RescaleBase.rescale (snd (RescaleBase.upscale fresh))).

(** An object of class [RescaleBase] with the same attributes,
    [descale_args] included. *)
Definition fresh_base : RescaleBase.t := Rescale.base fresh.

(** A mask supplied by the caller, and the object with it as line mask,
    credit mask or ignore mask. *)
Definition user_mask : VideoNode := Source "mask" (Some GRAY8) 1920 1080.

Definition with_line_mask : Rescale.t := Rescale.set_line_mask (Some user_mask) fresh.
Definition with_credit_mask : Rescale.t := Rescale.set_credit_mask (Some user_mask) fresh.
Definition with_ignore_mask : Rescale.t := Rescale.set_ignore_mask (Some user_mask) fresh.

(** [Rescale(clip, 715.5, Bicubic)], and the same with the ignore mask set. *)
Definition fractional : Rescale.t :=
  Rescale.set_base (RescaleBase.set_descale_args args_715_5 (Rescale.base fresh)) fresh.

Definition fractional_with_ignore_mask : Rescale.t :=
  Rescale.set_ignore_mask (Some user_mask) fractional.

(** An engine that renders the source as a gradient, a caller's mask as
    opaque everywhere and the final downscale as a flat 235. *)
Definition engine (c : VideoNode) (x y : Z) : Z :=
  match c with
  | Source _ _ _ _ => 16 + (x + y) mod 200
  | Depth _ _ => 255
  | ScalerScale _ _ _ _ _ => 235
  | _ => 0
  end.

(** CPython's default [sys.getrecursionlimit()]. *)
Definition recursion_limit : nat := 1000.

End Example.

(** Strings made of exactly two decimal digits. *)
Definition is_digit (c : ascii) : bool :=
  (Nat.leb 48 (nat_of_ascii c) && Nat.leb (nat_of_ascii c) 57)%bool.

Definition two_digit_string (s : string) : bool :=
  match s with
  | String a (String b EmptyString) => (is_digit a && is_digit b)%bool
  | _ => false
  end.

(** The text every tag records (lines 89): kernel class name, source width
    and height. *)
Definition tag_data {T : Type} `{RescaleBase.Self T} (self : T) : string :=
  kernel_class_name (RescaleBase.kernel (RescaleBase.attrs self)) +:+ " - "
    +:+ RescaleBase.format_dimension
          (ScalingArgs.src_width (RescaleBase.descale_args (RescaleBase.attrs self)))
    +:+ " x "
    +:+ RescaleBase.format_dimension
          (ScalingArgs.src_height (RescaleBase.descale_args (RescaleBase.attrs self))).

(** ** The default mask builders of [Rescale] *)

Section DefaultMasks.

(** External: [KirschTCanny.edgemask(clip, **kwargs)], [std.Maximum],
    [std.Minimum], [Scaler.scale(clip, width, height, format=...)] and
    [vsmasktools.based_diff_mask(src, rescale, thr=..., expand=..., ...)]. *)
Variable edgemask : VideoNode -> VideoNode.
Variable Maximum : VideoNode -> VideoNode.
Variable Minimum : VideoNode -> VideoNode.
Variable scale_to_format : Scaler -> VideoNode -> Z -> Z -> option VideoFormat -> VideoNode.
Variable based_diff_mask : VideoNode -> VideoNode -> Q -> Z -> VideoNode.

(** [default_line_mask] (lines 304-317). *)
Definition default_line_mask (self : Rescale.t) (clip : option VideoNode)
    (scaler : Scaler) : VideoNode * Rescale.t :=
  let luma := RescaleBase.clipy (Rescale.base self) in
  let line_mask :=
    Minimum (Maximum (edgemask (match clip with Some c => c | None => luma end))) in
  let line_mask :=
    scale_to_format scaler line_mask (width luma) (height luma) (format luma) in
  let self := Rescale.set_line_mask (Some line_mask) self in
  Rescale.line_mask self.

(** [default_credit_mask] (lines 319-341). *)
Definition default_credit_mask (self : Rescale.t) (rescale src : option VideoNode)
    (thr : Q) (expand : Z) : VideoNode * Rescale.t :=
  let src :=
    match src with
    | Some c => c
    | None => RescaleBase.clipy (Rescale.base self)
    end in
  let '(rescale, self) :=
    match rescale with
    | Some c => (c, self)
    | None => RescaleBase.rescale self
    end in
  let src := get_y src in
  let rescale := get_y rescale in
  let self := Rescale.set_credit_mask (Some (based_diff_mask src rescale thr expand)) self in
  Rescale.credit_mask self.

End DefaultMasks.

(** More concrete inputs. *)
Module Scenario.

(** [Rescale(clip, 720, Bicubic, border_handling=1)]. *)
Definition zero_padded : Rescale.t :=
  Rescale.set_base
    {| RescaleBase.clipy := ShufflePlanes Example.clip 0;
       RescaleBase.chroma := [ShufflePlanes Example.clip 1; ShufflePlanes Example.clip 2];
       RescaleBase.kernel := Example.bicubic;
       RescaleBase.upscaler := Example.artcnn;
       RescaleBase.downscaler := Example.hermite;
       RescaleBase.field_based := None;
       RescaleBase.border_handling := ZERO;
       RescaleBase.descale_args := Example.args_720;
       RescaleBase.__dict__ := ∅ |}
    Example.fresh.

(** [Rescale(clip, 720, Bicubic, field_based=FieldBased.TFF)]. *)
Definition interlaced : Rescale.t :=
  Rescale.set_base
    {| RescaleBase.clipy := ShufflePlanes Example.clip 0;
       RescaleBase.chroma := [ShufflePlanes Example.clip 1; ShufflePlanes Example.clip 2];
       RescaleBase.kernel := Example.bicubic;
       RescaleBase.upscaler := Example.artcnn;
       RescaleBase.downscaler := Example.hermite;
       RescaleBase.field_based := Some TFF;
       RescaleBase.border_handling := MIRROR;
       RescaleBase.descale_args := Example.args_720;
       RescaleBase.__dict__ := ∅ |}
    Example.fresh.

(** Stand-ins for the mask generators: they answer with a fresh gray clip of
    the dimensions of their input, or of the dimensions asked for. *)
Definition edgemask (c : VideoNode) : VideoNode :=
  Source "edges" (Some GRAY8) (width c) (height c).

Definition morph (c : VideoNode) : VideoNode := c.

Definition scale_to_format (s : Scaler) (c : VideoNode) (w h : Z)
    (f : option VideoFormat) : VideoNode :=
  Source "scaled" f w h.

Definition based_diff_mask (src rescale : VideoNode) (thr : Q) (expand : Z) : VideoNode :=
  Source "diff" (format src) (width src) (height src).

End Scenario.

(** The assignment [cached_property] makes: [self.__dict__[attrname] = val]. *)
Definition cache_store (attrname : string) (val : VideoNode) (self : Rescale.t) : Rescale.t :=
  Rescale.set_base
    (RescaleBase.set___dict__
       (<[attrname := val]> (RescaleBase.__dict__ (Rescale.base self)))
       (Rescale.base self))
    self.

(** The object as constructed with another [field_based] argument. *)
Definition with_field_based (f : option FieldBased) (self : Rescale.t) : Rescale.t :=
  Rescale.set_base
    {| RescaleBase.clipy := RescaleBase.clipy (Rescale.base self);
       RescaleBase.chroma := RescaleBase.chroma (Rescale.base self);
       RescaleBase.kernel := RescaleBase.kernel (Rescale.base self);
       RescaleBase.upscaler := RescaleBase.upscaler (Rescale.base self);
       RescaleBase.downscaler := RescaleBase.downscaler (Rescale.base self);
       RescaleBase.field_based := f;
       RescaleBase.border_handling := RescaleBase.border_handling (Rescale.base self);
       RescaleBase.descale_args := RescaleBase.descale_args (Rescale.base self);
       RescaleBase.__dict__ := RescaleBase.__dict__ (Rescale.base self) |}
    self.

(** The attributes a property read cannot change: the object with the cache
    emptied, the mode reset and the line mask removed. *)
Definition configuration (self : Rescale.t) : Rescale.t :=
  Rescale.set__line_mask None
    (Rescale.set_mode "hw"
       (Rescale.set_base (RescaleBase.set___dict__ ∅ (Rescale.base self)) self)).

(** * Properties *)

(** The example objects are what the constructor returns. *)
Lemma example_objects_constructed :
  Rescale.__init__ (Example.from_args Example.args_720) Example.clip (Int 720)
    Example.bicubic Example.artcnn Example.hermite None None None
    Example.no_crop (0 # 1, 0 # 1)%Q None 0 = Ok Example.fresh
  /\ Rescale.__init__ (Example.from_args Example.args_720) Example.clip (Int 720)
       Example.bicubic Example.artcnn Example.hermite None None None
       Example.crop_4_6_2_8 (0 # 1, 0 # 1)%Q None 0 = Ok Example.cropped
  /\ Rescale.__init__ (Example.from_args Example.args_715_5) Example.clip (Float (1431 # 2))
       Example.bicubic Example.artcnn Example.hermite None None None
       Example.no_crop (0 # 1, 0 # 1)%Q None 0 = Ok Example.fractional.
Proof. repeat split. Qed.

(** ** Cached properties and deletion *)

Section Cache.
Context {T : Type} `{RescaleBase.Methods T}.

(** Once read, a cached property answers from [__dict__] and leaves the
    object as it is. *)
Lemma cached_property_again (attrname : string) (func : T -> VideoNode * T) (self : T) :
  RescaleBase.cached_property attrname func
      (snd (RescaleBase.cached_property attrname func self))
  = RescaleBase.cached_property attrname func self.
Proof.
  unfold RescaleBase.cached_property.
  destruct (RescaleBase.__dict__ (RescaleBase.attrs self) !! attrname) as [v|] eqn:E.
  - simpl. now rewrite E.
  - destruct (func self) as [v s1]. simpl.
    rewrite RescaleBase.attrs_with_attrs. simpl.
    now rewrite lookup_insert_eq.
Qed.

(** Every call of [__delattr__] re-enters [__delattr__] until the recursion
    limit is hit; the [RecursionError] passes through [_trydelattr], and no
    entry is ever removed. *)
Lemma delattr_recursion (depth : nat) (self : T) (name : string) :
  RescaleBase.__delattr__ depth self name = (Error RecursionError, self).
Proof.
  revert self name. induction depth as [|depth IH]; intros self name; [reflexivity|].
  cbn [RescaleBase.__delattr__]. unfold RescaleBase._trydelattr.
  destruct (String.eqb name "descale"); [|destruct (String.eqb name "doubled")];
    now rewrite ?IH.
Qed.

(** What [_trydelattr] absorbs is an [AttributeError] and nothing else. *)
Lemma trydelattr_absorbs (delattr : T -> string -> Result unit * T) self attr self' :
  delattr self attr = (Error AttributeError, self') ->
  RescaleBase._trydelattr delattr self attr = (Ok tt, self').
Proof. intros E. unfold RescaleBase._trydelattr. now rewrite E. Qed.

Lemma trydelattr_propagates (delattr : T -> string -> Result unit * T) self attr e self' :
  delattr self attr = (Error e, self') -> e <> AttributeError ->
  RescaleBase._trydelattr delattr self attr = (Error e, self').
Proof.
  intros E Hne. unfold RescaleBase._trydelattr. rewrite E.
  destruct e; congruence.
Qed.

End Cache.

(** C1 (the code departs from the claim).  On an object whose four derived
    entries are cached, [del self.descale] does not clear anything: the call
    ends in [RecursionError] with the object unchanged, so [rescale],
    [doubled] and [upscale] stay cached; [del self.doubled] fails in the same
    way and leaves [upscale] cached.  After an ignore mask is assigned and
    [del self.descale] attempted, reading [rescale] still answers with the
    clip computed from the old [descale], not with the one a fresh [descale]
    would give. *)
Theorem delattr_clears_nothing :
  RescaleBase.__delattr__ Example.recursion_limit Example.all_cached "descale"
    = (Error RecursionError, Example.all_cached)
  /\ RescaleBase.__delattr__ Example.recursion_limit Example.all_cached "doubled"
    = (Error RecursionError, Example.all_cached)
  /\ Forall
       (fun name =>
          is_Some (RescaleBase.__dict__ (Rescale.base Example.all_cached) !! name))
       ["descale"; "rescale"; "doubled"; "upscale"]
  /\ (let changed := Rescale.set_ignore_mask (Some Example.user_mask) Example.all_cached in
      let after :=
        snd (RescaleBase.__delattr__ Example.recursion_limit changed "descale") in
      fst (RescaleBase.rescale after) = fst (RescaleBase.rescale Example.all_cached)
      /\ fst (RescaleBase.rescale after)
         <> fst (RescaleBase.rescale Example.with_ignore_mask)).
Proof.
  rewrite !delattr_recursion. repeat split.
  - repeat constructor; vm_compute; eexists; reflexivity.
  - vm_compute. discriminate.
Qed.

(** C2.  For an object of [RescaleBase] or of any subclass, reading
    [descale], [rescale], [doubled] or [upscale] a second time, with nothing
    in between, returns the clip the first read returned and leaves the
    object as the first read left it: the value is the entry that the first
    read found or stored in [__dict__] under the property's name. *)
Theorem derived_properties_memoized {T : Type} `{RescaleBase.Methods T} (self : T) :
  Forall
    (fun '(attrname, property) =>
       let '(first, self1) := (property : T -> VideoNode * T) self in
       let '(second, self2) := property self1 in
       second = first /\ self2 = self1
       /\ RescaleBase.__dict__ (RescaleBase.attrs self1) !! attrname = Some first)
    [("descale", RescaleBase.descale); ("rescale", RescaleBase.rescale);
     ("doubled", RescaleBase.doubled); ("upscale", RescaleBase.upscale)].
Proof.
  assert (G : forall attrname func,
             let property := RescaleBase.cached_property attrname func in
             let '(first, self1) := property self in
             let '(second, self2) := property self1 in
             second = first /\ self2 = self1
             /\ RescaleBase.__dict__ (RescaleBase.attrs self1) !! attrname = Some first).
  { intros attrname func. cbv zeta.
    pose proof (cached_property_again attrname func self) as E.
    assert (L : RescaleBase.__dict__
                  (RescaleBase.attrs (snd (RescaleBase.cached_property attrname func self)))
                  !! attrname
                = Some (fst (RescaleBase.cached_property attrname func self))).
    { unfold RescaleBase.cached_property.
      destruct (RescaleBase.__dict__ (RescaleBase.attrs self) !! attrname) as [v|] eqn:D.
      - exact D.
      - destruct (func self) as [v s1]. simpl.
        rewrite RescaleBase.attrs_with_attrs. simpl. apply lookup_insert_eq. }
    destruct (RescaleBase.cached_property attrname func self) as [first self1].
    simpl in E, L. rewrite E. repeat split. exact L. }
  repeat constructor; apply G.
Qed.

(** C8 (as amended).  Deleting a derived entry that was never computed, or
    was cleared, does not complete: the deletion raises an error to the
    caller. *)
Theorem delattr_missing_entry_raises {T : Type} `{RescaleBase.Methods T}
    (depth : nat) (self : T) (name : string) :
  In name ["descale"; "rescale"; "doubled"; "upscale"] ->
  RescaleBase.__dict__ (RescaleBase.attrs self) !! name = None ->
  exists e, fst (RescaleBase.__delattr__ depth self name) = Error e.
Proof.
  intros _ _. rewrite delattr_recursion. now exists RecursionError.
Qed.

Lemma delattr_missing_entry_raises_witness :
  exists e,
    fst (RescaleBase.__delattr__ Example.recursion_limit Example.fresh "upscale") = Error e.
Proof.
  apply (delattr_missing_entry_raises Example.recursion_limit Example.fresh "upscale").
  - simpl. tauto.
  - reflexivity.
Defined.

(** C8 as stated fails: on a fresh object no derived entry has been
    computed, and deleting one is not a silent no-op. *)
Lemma delattr_missing_entry_not_noop :
  RescaleBase.__dict__ (Rescale.base Example.fresh) !! "upscale" = None
  /\ RescaleBase.__delattr__ Example.recursion_limit Example.fresh "upscale"
     <> (Ok tt, Example.fresh).
Proof.
  split; [reflexivity|]. rewrite delattr_recursion. discriminate.
Qed.

(** ** What the merges render *)

Lemma merge_sample_transparent (peak a b : Z) :
  0 < peak -> merge_sample peak a b 0 = a.
Proof.
  intros Hp. unfold merge_sample.
  replace (a * (peak - 0) + b * 0 + peak / 2) with (a * peak + peak / 2) by ring.
  rewrite Z.div_add_l by lia.
  rewrite (Z.div_small (peak / 2) peak); [lia|].
  split; [apply Z.div_pos; lia | apply Z.div_lt; lia].
Qed.

Lemma merge_sample_opaque (peak a b : Z) :
  0 < peak -> merge_sample peak a b peak = b.
Proof.
  intros Hp. unfold merge_sample.
  replace (a * (peak - peak) + b * peak + peak / 2) with (b * peak + peak / 2) by ring.
  rewrite Z.div_add_l by lia.
  rewrite (Z.div_small (peak / 2) peak); [lia|].
  split; [apply Z.div_pos; lia | apply Z.div_lt; lia].
Qed.

(** [Rescale._generate_upscale] is the base upscale followed by the three
    conditional merges, in this order. *)
Lemma generate_upscale_stages (self : Rescale.t) (clip : VideoNode) :
  Rescale._generate_upscale self clip =
    let upscale := fst (call RescaleBase._generate_upscale self clip) in
    let '(upscale, self) := Rescale.merge_line_mask upscale self in
    let '(upscale, self) := Rescale.merge_credit_mask upscale self in
    (Rescale.restore_crop upscale self, self).
Proof. reflexivity. Qed.

(** The base upscale has the dimensions of the (cropped) luma plane and
    carries the tag of [_add_props]. *)
Lemma base_upscale_shape (self : Rescale.t) (clip : VideoNode) :
  call RescaleBase._generate_upscale self clip =
    (SetFrameProp
       (ScalerScale (RescaleBase.downscaler (Rescale.base self)) clip
          (width (RescaleBase.clipy (Rescale.base self)))
          (height (RescaleBase.clipy (Rescale.base self)))
          (kwargs (RescaleBase.descale_args (Rescale.base self)) (Some clip)))
       "RescaleUpscaleFrom"
       (kernel_class_name (RescaleBase.kernel (Rescale.base self)) +:+ " - "
          +:+ RescaleBase.format_dimension
                (ScalingArgs.src_width (RescaleBase.descale_args (Rescale.base self)))
          +:+ " x "
          +:+ RescaleBase.format_dimension
                (ScalingArgs.src_height (RescaleBase.descale_args (Rescale.base self)))),
     self).
Proof. reflexivity. Qed.

(** The mask [line_mask] returns does not depend on when it is read within
    the merge: it is a function of the object. *)
Lemma merge_line_mask_eq (self : Rescale.t) (upscale : VideoNode) :
  Rescale.merge_line_mask upscale self =
    if (truthy (Rescale._line_mask self)
        || truthy (RescaleBase.border_handling (Rescale.base self)))%bool
    then (CopyFrameProps
            (MaskedMerge (RescaleBase.clipy (Rescale.base self)) upscale
               (fst (Rescale.line_mask self)))
            upscale,
          snd (Rescale.line_mask self))
    else (upscale, self).
Proof. reflexivity. Qed.

Lemma merge_credit_mask_eq (self : Rescale.t) (upscale : VideoNode) :
  Rescale.merge_credit_mask upscale self =
    match Rescale._credit_mask self with
    | Some cm => (MaskedMerge upscale (RescaleBase.clipy (Rescale.base self)) cm, self)
    | None => (upscale, self)
    end.
Proof.
  unfold Rescale.merge_credit_mask, Rescale.credit_mask.
  now destruct (Rescale._credit_mask self).
Qed.

(** C3 (as amended).  The upscale composition starts with the line-mask
    step.  When a line mask is set or border handling is not mirror, the step
    is [MaskedMerge(luma, upscale, line_mask)] followed by a copy of the
    upscale's frame properties: the result is the base upscaled sample where
    the line mask is at peak and the original luma where it is zero.  When
    neither holds, the step returns the base upscale and writes nothing. *)
Theorem line_mask_merge_keeps_upscale_where_opaque
    (engine : VideoNode -> Z -> Z -> Z) (self : Rescale.t) (clip : VideoNode) :
  let luma := RescaleBase.clipy (Rescale.base self) in
  let upscale := fst (call RescaleBase._generate_upscale self clip) in
  let lm := fst (Rescale.line_mask self) in
  let merged := fst (Rescale.merge_line_mask upscale self) in
  0 < get_peak_value lm ->
  Rescale._generate_upscale self clip =
    (let '(merged, self) := Rescale.merge_line_mask upscale self in
     let '(upscale, self) := Rescale.merge_credit_mask merged self in
     (Rescale.restore_crop upscale self, self))
  /\ if (truthy (Rescale._line_mask self)
         || truthy (RescaleBase.border_handling (Rescale.base self)))%bool
     then merged = CopyFrameProps (MaskedMerge luma upscale lm) upscale
          /\ forall x y,
               (pixel engine lm x y = get_peak_value lm ->
                pixel engine merged x y = pixel engine upscale x y)
               /\ (pixel engine lm x y = 0 ->
                   pixel engine merged x y = pixel engine luma x y)
     else Rescale.merge_line_mask upscale self = (upscale, self).
Proof.
  intros luma upscale lm merged Hpeak. split; [reflexivity|].
  subst merged. rewrite merge_line_mask_eq.
  destruct (truthy (Rescale._line_mask self)
            || truthy (RescaleBase.border_handling (Rescale.base self)))%bool;
    [|reflexivity].
  split; [reflexivity|]. intros x y. cbn [fst pixel]. fold lm.
  split; intros ->.
  - now apply merge_sample_opaque.
  - now apply merge_sample_transparent.
Qed.

Lemma line_mask_merge_keeps_upscale_where_opaque_witness :
  let self := Example.with_line_mask in
  let clip := fst (RescaleBase.doubled self) in
  let merged := fst (Rescale.merge_line_mask (fst (call RescaleBase._generate_upscale self clip)) self) in
  pixel Example.engine merged 100 50 = 235.
Proof.
  intros self clip merged.
  pose proof (line_mask_merge_keeps_upscale_where_opaque Example.engine self clip) as W.
  cbv zeta in W. destruct W as [_ W]; [reflexivity|].
  change (truthy (Rescale._line_mask self)
          || truthy (RescaleBase.border_handling (Rescale.base self)))%bool
    with true in W.
  destruct W as [_ W]. destruct (W 100 50) as [W1 _].
  subst merged. rewrite W1; reflexivity.
Defined.

(** C3 as stated fails: with a line mask that is opaque at a pixel, the
    composition renders the upscaled sample there, not the original luma. *)
Lemma line_mask_opaque_is_not_original_luma :
  let self := Example.with_line_mask in
  let luma := RescaleBase.clipy (Rescale.base self) in
  let lm := fst (Rescale.line_mask self) in
  let out := fst (Rescale._generate_upscale self (fst (RescaleBase.doubled self))) in
  truthy (Rescale._line_mask self) = true
  /\ pixel Example.engine lm 100 50 = get_peak_value lm
  /\ pixel Example.engine luma 100 50 = 166
  /\ pixel Example.engine out 100 50 = 235
  /\ pixel Example.engine out 100 50 <> pixel Example.engine luma 100 50.
Proof. vm_compute. repeat split; discriminate. Qed.

(** C4 (as amended).  When a credit mask is set, the next step is
    [MaskedMerge(upscale, luma, credit_mask)], the arguments in the other
    order: the result is the original luma where the credit mask is at peak
    and the upscaled sample where it is zero.  Without a credit mask the step
    returns its input. *)
Theorem credit_mask_merge_keeps_luma_where_opaque
    (engine : VideoNode -> Z -> Z -> Z) (self : Rescale.t) (upscale : VideoNode) :
  let luma := RescaleBase.clipy (Rescale.base self) in
  let merged := fst (Rescale.merge_credit_mask upscale self) in
  match Rescale._credit_mask self with
  | Some cm =>
      0 < get_peak_value cm ->
      Rescale.merge_credit_mask upscale self = (MaskedMerge upscale luma cm, self)
      /\ forall x y,
           (pixel engine cm x y = get_peak_value cm ->
            pixel engine merged x y = pixel engine luma x y)
           /\ (pixel engine cm x y = 0 ->
               pixel engine merged x y = pixel engine upscale x y)
  | None => Rescale.merge_credit_mask upscale self = (upscale, self)
  end.
Proof.
  intros luma merged. subst merged. rewrite merge_credit_mask_eq.
  destruct (Rescale._credit_mask self) as [cm|]; [|reflexivity].
  intros Hpeak. split; [reflexivity|]. intros x y. cbn [fst pixel].
  split; intros ->.
  - now apply merge_sample_opaque.
  - now apply merge_sample_transparent.
Qed.

Lemma credit_mask_merge_keeps_luma_where_opaque_witness :
  let self := Example.with_credit_mask in
  let upscale := fst (call RescaleBase._generate_upscale self (fst (RescaleBase.doubled self))) in
  pixel Example.engine (fst (Rescale.merge_credit_mask upscale self)) 100 50 = 166.
Proof.
  intros self upscale.
  pose proof (credit_mask_merge_keeps_luma_where_opaque Example.engine self upscale) as W.
  cbv zeta in W.
  change (Rescale._credit_mask self) with (Some (Depth Example.user_mask 8)) in W.
  destruct W as [_ W]; [reflexivity|].
  destruct (W 100 50) as [W1 _]. rewrite W1; reflexivity.
Defined.

(** C4 as stated fails: with a credit mask that is opaque at a pixel, the
    composition renders the original luma there, not the upscaled sample. *)
Lemma credit_mask_opaque_is_not_upscale :
  let self := Example.with_credit_mask in
  let luma := RescaleBase.clipy (Rescale.base self) in
  let upscale := fst (call RescaleBase._generate_upscale self (fst (RescaleBase.doubled self))) in
  let out := fst (Rescale._generate_upscale self (fst (RescaleBase.doubled self))) in
  exists cm,
    Rescale._credit_mask self = Some cm
    /\ pixel Example.engine cm 100 50 = get_peak_value cm
    /\ pixel Example.engine upscale 100 50 = 235
    /\ pixel Example.engine out 100 50 = 166
    /\ pixel Example.engine out 100 50 <> pixel Example.engine upscale 100 50.
Proof. eexists. vm_compute. repeat split; discriminate. Qed.

(** C10.  Reading [line_mask] on an object whose line mask was never set
    builds the default mask (a blank clip at peak value, its kernel-radius
    frame rewritten to peak when border handling is not mirror), which is
    opaque everywhere, and stores it in [_line_mask].  Under mirror border
    handling the line-mask step of the upscale composition does nothing
    before that read and merges with the stored default after it. *)
Theorem line_mask_read_stores_default
    (engine : VideoNode -> Z -> Z -> Z) (self : Rescale.t) (upscale doubled : VideoNode) :
  Rescale._line_mask self = None ->
  let luma := RescaleBase.clipy (Rescale.base self) in
  let radius := kernel_radius (RescaleBase.kernel (Rescale.base self)) in
  let blank := BlankClip luma (Some (get_peak_value luma)) None in
  let lm := fst (Rescale.line_mask self) in
  let self' := snd (Rescale.line_mask self) in
  lm = (if truthy (RescaleBase.border_handling (Rescale.base self))
        then NormExpr blank
               (_get_region_expr blank radius radius radius radius
                  (Const (get_peak_value blank), InputX))
        else blank)
  /\ self' = Rescale.set__line_mask (Some lm) self
  /\ Rescale._line_mask self' = Some lm
  /\ (forall x y, pixel engine lm x y = get_peak_value luma)
  /\ (RescaleBase.border_handling (Rescale.base self) = MIRROR ->
      Rescale.merge_line_mask upscale self = (upscale, self)
      /\ Rescale.merge_line_mask upscale self'
         = (CopyFrameProps (MaskedMerge luma upscale lm) upscale, self')
      /\ Rescale._generate_upscale self' doubled
         = (let base := fst (call RescaleBase._generate_upscale self' doubled) in
            let merged := CopyFrameProps (MaskedMerge luma base lm) base in
            let '(out, s) := Rescale.merge_credit_mask merged self' in
            (Rescale.restore_crop out s, s))).
Proof.
  intros Hnone luma radius blank lm self'.
  subst lm self'. unfold Rescale.line_mask. rewrite Hnone. cbn [fst snd].
  fold luma. fold blank. fold radius.
  split; [reflexivity|]. split; [reflexivity|]. split; [reflexivity|]. split.
  - intros x y. destruct (truthy (RescaleBase.border_handling (Rescale.base self))).
    + cbn [pixel]. now destruct (in_region_border _ x y).
    + reflexivity.
  - intros Hbh. rewrite !generate_upscale_stages, !merge_line_mask_eq.
    unfold Rescale.line_mask. rewrite Hnone, Hbh. cbn.
    rewrite !Hbh. cbn. fold luma. repeat split.
Qed.

Lemma line_mask_read_stores_default_witness :
  Rescale.merge_line_mask Example.user_mask Example.fresh
    = (Example.user_mask, Example.fresh)
  /\ fst (Rescale.merge_line_mask Example.user_mask (snd (Rescale.line_mask Example.fresh)))
     = CopyFrameProps
         (MaskedMerge (ShufflePlanes Example.clip 0) Example.user_mask
            (BlankClip (ShufflePlanes Example.clip 0) (Some 255) None))
         Example.user_mask.
Proof.
  pose proof (line_mask_read_stores_default Example.engine Example.fresh Example.user_mask
                Example.user_mask eq_refl) as W.
  cbv zeta in W. destruct W as (_ & _ & _ & _ & W).
  destruct (W eq_refl) as (W1 & W2 & _). split; [exact W1|].
  rewrite W2. reflexivity.
Defined.

(** ** The two-pass descale *)

(** C5.  With an ignore mask set, [_generate_descale] builds two nested
    single-axis descales inside the field-based and tagging wrappers: the
    inner one on the height, with the keyword arguments of mode ["h"] and the
    ignore mask as it is; the outer one on the width of that intermediate,
    with the keyword arguments of mode ["w"] and the ignore mask resized by
    [Point] to the intermediate's height.  The mode ends as ["hw"] and nothing
    else of the object changes; the result is not the single-pass descale,
    and it is what the [descale] property computes and caches. *)
Theorem ignore_mask_descale_is_two_pass (self : Rescale.t) (im clip : VideoNode) :
  Rescale._ignore_mask self = Some im ->
  let b := Rescale.base self in
  let args := RescaleBase.descale_args b in
  let field_in := fun c =>
    match RescaleBase.field_based b with
    | Some fb => if truthy (Some fb) then FieldBasedApply fb c else c
    | None => c
    end in
  let field_out := fun c =>
    if truthy (RescaleBase.field_based b) then FieldBasedApply PROGRESSIVE c else c in
  let descale_h := fun c =>
    KernelDescale (RescaleBase.kernel b) (field_in c)
      None (Some (ScalingArgs.height args))
      (kwargs (ScalingArgs.set_mode "h" args) None)
      (RescaleBase.border_handling b) (Some im) in
  let descale_w := fun c =>
    KernelDescale (RescaleBase.kernel b) (descale_h c)
      (Some (ScalingArgs.width args)) None
      (kwargs (ScalingArgs.set_mode "w" args) None)
      (RescaleBase.border_handling b)
      (Some (PointScale im None (Some (height (descale_h c))))) in
  let tagged := fun c =>
    SetFrameProp (field_out (descale_w c)) "RescaleMaskFrom"
      (kernel_class_name (RescaleBase.kernel b) +:+ " - "
         +:+ RescaleBase.format_dimension (ScalingArgs.src_width args) +:+ " x "
         +:+ RescaleBase.format_dimension (ScalingArgs.src_height args)) in
  Rescale._generate_descale self clip = (tagged clip, Rescale.set_mode "hw" self)
  /\ height (descale_h clip) = ScalingArgs.height args
  /\ ScalingArgs.mode
       (RescaleBase.descale_args (Rescale.base (snd (Rescale._generate_descale self clip))))
     = "hw"
  /\ fst (Rescale._generate_descale self clip)
     <> fst (call RescaleBase._generate_descale self clip)
  /\ (RescaleBase.__dict__ b !! "descale" = None ->
      fst (RescaleBase.descale self) = tagged (RescaleBase.clipy b)
      /\ RescaleBase.__dict__ (Rescale.base (snd (RescaleBase.descale self))) !! "descale"
         = Some (tagged (RescaleBase.clipy b))).
Proof.
  intros Him b args field_in field_out descale_h descale_w tagged.
  assert (E : Rescale._generate_descale self clip = (tagged clip, Rescale.set_mode "hw" self)
              /\ Rescale._generate_descale self (RescaleBase.clipy b)
                 = (tagged (RescaleBase.clipy b), Rescale.set_mode "hw" self)).
  { unfold Rescale._generate_descale. rewrite Him.
    subst tagged descale_w descale_h field_in field_out args b.
    cbn. destruct (RescaleBase.field_based (Rescale.base self)) as [[]|];
      split; reflexivity. }
  destruct E as [E Ey]. rewrite E. cbn [fst snd].
  split; [reflexivity|]. split; [reflexivity|]. split; [reflexivity|]. split.
  - subst tagged field_out. cbn.
    destruct (RescaleBase.field_based (Rescale.base self)) as [[]|]; discriminate.
  - intros Hmiss. unfold RescaleBase.descale, RescaleBase.cached_property.
    cbn [RescaleBase.attrs Rescale.self_t RescaleBase.self_generate_descale Rescale.methods_t].
    fold b. rewrite Hmiss, Ey. cbn [fst snd]. split; [reflexivity|].
    cbn. apply lookup_insert_eq.
Qed.

Lemma ignore_mask_descale_is_two_pass_witness :
  fst (RescaleBase.descale Example.fractional_with_ignore_mask)
  = SetFrameProp
      (KernelDescale Example.bicubic
         (KernelDescale Example.bicubic (ShufflePlanes Example.clip 0)
            None (Some 716)
            (kwargs (ScalingArgs.set_mode "h" Example.args_715_5) None)
            MIRROR (Some (Depth Example.user_mask 8)))
         (Some 1272) None
         (kwargs (ScalingArgs.set_mode "w" Example.args_715_5) None)
         MIRROR (Some (PointScale (Depth Example.user_mask 8) None (Some 716))))
      "RescaleMaskFrom" "Bicubic - 1272 x 715.50".
Proof.
  pose proof (ignore_mask_descale_is_two_pass Example.fractional_with_ignore_mask
                (Depth Example.user_mask 8) Example.clip eq_refl) as W.
  cbv zeta in W. destruct W as (_ & _ & _ & _ & W).
  destruct (W eq_refl) as [W1 _]. rewrite W1. reflexivity.
Defined.

(** ** Frame properties *)

Lemma two_digits_shape (k : Z) : 0 <= k < 100 -> two_digit_string (two_digits k) = true.
Proof.
  intros Hk.
  assert (A : forallb (fun n => two_digit_string (two_digits (Z.of_nat n))) (seq 0 100) = true)
    by (vm_compute; reflexivity).
  rewrite forallb_forall in A. specialize (A (Z.to_nat k)).
  rewrite Z2Nat.id in A by lia. apply A. apply in_seq. lia.
Qed.

(** An integral dimension is rendered as the integer, a fractional one with
    exactly two digits after the point. *)
Lemma format_dimension_integral (d : Q) :
  is_integer d = true -> RescaleBase.format_dimension d = str_int (int d).
Proof. intros E. unfold RescaleBase.format_dimension. now rewrite E. Qed.

Lemma format_dimension_fractional (d : Q) :
  is_integer d = false ->
  exists sign whole frac,
    RescaleBase.format_dimension d = sign +:+ whole +:+ "." +:+ frac
    /\ two_digit_string frac = true.
Proof.
  intros E. unfold RescaleBase.format_dimension, format_2f. rewrite E.
  do 3 eexists. split; [reflexivity|].
  apply two_digits_shape, Z.mod_pos_bound. lia.
Qed.

Lemma format_dimension_examples :
  RescaleBase.format_dimension (1431 # 2) = "715.50"
  /\ RescaleBase.format_dimension (720 # 1) = "720"
  /\ RescaleBase.format_dimension (1440 # 2) = "720".
Proof. repeat split. Qed.

Section Tags.
Context {T : Type} `{RescaleBase.Self T}.

(** The generators of [RescaleBase] tag their output with their operation. *)
Lemma base_generators_tagged (self : T) (clip : VideoNode) :
  frame_prop (fst (call RescaleBase._generate_descale self clip)) "RescaleDescaleFrom"
    = Some (tag_data self)
  /\ frame_prop (fst (call RescaleBase._generate_rescale self clip)) "RescaleRescaleFrom"
    = Some (tag_data self)
  /\ frame_prop (fst (call RescaleBase._generate_doubled self clip)) "RescaleDoubledFrom"
    = Some (tag_data self)
  /\ frame_prop (fst (call RescaleBase._generate_upscale self clip)) "RescaleUpscaleFrom"
    = Some (tag_data self).
Proof.
  unfold tag_data. cbn.
  destruct (truthy (RescaleBase.field_based (RescaleBase.attrs self))); repeat split.
Qed.

End Tags.

(** The merges of [Rescale._generate_upscale] keep the tag of the base
    upscale. *)
Lemma rescale_upscale_tagged (self : Rescale.t) (clip : VideoNode) :
  frame_prop (fst (Rescale._generate_upscale self clip)) "RescaleUpscaleFrom"
    = Some (tag_data self).
Proof.
  rewrite generate_upscale_stages. cbv zeta. rewrite merge_line_mask_eq.
  destruct (truthy (Rescale._line_mask self)
            || truthy (RescaleBase.border_handling (Rescale.base self)))%bool;
    rewrite merge_credit_mask_eq;
    match goal with |- context [Rescale._credit_mask ?s] =>
      destruct (Rescale._credit_mask s) end;
    cbn [fst snd]; unfold Rescale.restore_crop;
    match goal with |- context [tuple_gt ?a ?b] => destruct (tuple_gt a b) end;
    reflexivity.
Qed.

(** C7 (the code departs from the claim).  With an ignore mask set, the clip
    the [descale] property produces is tagged [RescaleMaskFrom]: the tag
    names the last word of [_generate_descale_ignore_mask], not the descale
    operation, and no [RescaleDescaleFrom] is set, while the same object
    without the ignore mask tags its descale [RescaleDescaleFrom].  The text
    recorded is the same in both, with 715.5 rendered as 715.50. *)
Theorem ignore_mask_descale_tag :
  let masked := fst (RescaleBase.descale Example.fractional_with_ignore_mask) in
  let plain := fst (RescaleBase.descale Example.fractional) in
  (exists inner, masked = SetFrameProp inner "RescaleMaskFrom" "Bicubic - 1272 x 715.50")
  /\ frame_prop masked "RescaleMaskFrom" = Some "Bicubic - 1272 x 715.50"
  /\ frame_prop masked "RescaleDescaleFrom" = None
  /\ frame_prop plain "RescaleDescaleFrom" = Some "Bicubic - 1272 x 715.50".
Proof. split; [eexists; vm_compute; reflexivity|]. repeat split. Qed.

(** ** Construction *)

(** C9.  [RescaleBase.__init__] fails on a clip of variable format or
    resolution with the corresponding invalid-input error.  [Rescale.__init__]
    builds no object on such a clip either, but it calls
    [ScalingArgs.from_args] on the unchecked clip first (line 194, before the
    check that line 196 reaches): it fails with the error of [from_args] if
    that call fails, and with the invalid-input error of the check once
    [from_args] has returned.  The check is made at construction only: what
    the base constructor returns has passed it, and an object that was built
    has passed it and has no derived entry yet. *)
Theorem construction_rejects_variable_clip
    (from_args : from_args_t) (clip : VideoNode)
    (target_height : Number) (kernel : Kernel) (upscaler downscaler : Scaler)
    (target_width : option Number) (base_height base_width : option Z)
    (crop : CropRel) (shift : Q * Q)
    (field_based : option FieldBased) (border_handling : Z) :
  let variable_error :=
    match format clip with None => VariableFormatError | Some _ => VariableResolutionError end in
  let requested :=
    from_args clip target_height target_width base_height base_width
      (fst shift) (snd shift) crop "hw" in
  let base_init :=
    RescaleBase.__init__ clip kernel upscaler downscaler field_based border_handling in
  let init :=
    Rescale.__init__ from_args clip target_height kernel upscaler downscaler
      target_width base_height base_width crop shift field_based border_handling in
  (format clip = None \/ width clip = 0 \/ height clip = 0 ->
   base_init = Error variable_error
   /\ is_invalid_input variable_error = true
   /\ (exists e, init = Error e)
   /\ (forall e, requested = Error e -> init = Error e)
   /\ (forall a, requested = Ok a -> init = Error variable_error))
  /\ (forall attributes, base_init = Ok attributes -> check_variable clip = Ok tt)
  /\ (forall self, init = Ok self ->
        check_variable clip = Ok tt /\ RescaleBase.__dict__ (Rescale.base self) = ∅).
Proof.
  intros variable_error requested base_init init.
  assert (V : format clip = None \/ width clip = 0 \/ height clip = 0 ->
              check_variable clip = Error variable_error).
  { intros Hv. subst variable_error. unfold check_variable.
    destruct (format clip); [|reflexivity].
    destruct Hv as [Hv|[Hv|Hv]]; [discriminate| |]; rewrite Hv.
    - reflexivity.
    - now rewrite orb_true_r. }
  assert (B : forall attributes, base_init = Ok attributes -> check_variable clip = Ok tt).
  { intros attributes. subst base_init. unfold RescaleBase.__init__.
    now destruct (check_variable clip) as [[]|e]. }
  split; [|split].
  - intros Hv. specialize (V Hv).
    assert (Eb : base_init = Error variable_error).
    { subst base_init. unfold RescaleBase.__init__. now rewrite V. }
    split; [exact Eb|]. split; [subst variable_error; now destruct (format clip)|].
    subst init base_init requested. unfold Rescale.__init__.
    destruct (from_args _ _ _ _ _ _ _ _ _) as [a|e].
    + rewrite Eb. split; [now exists variable_error|]. split; [discriminate|reflexivity].
    + split; [now exists e|]. split; [now intros ? [= <-]|discriminate].
  - exact B.
  - intros self. subst init base_init. unfold Rescale.__init__.
    destruct (from_args _ _ _ _ _ _ _ _ _) as [a|e]; [|discriminate].
    destruct (RescaleBase.__init__ clip kernel upscaler downscaler
                field_based border_handling) as [b|e] eqn:Eb; [|discriminate].
    specialize (B b eq_refl). cbv zeta. cbn [Rescale._crop Rescale.base RescaleBase.clipy].
    destruct (tuple_gt (crop_tuple crop) [0; 0; 0; 0]).
    + destruct (std_Crop _ _ _ _ _); [|discriminate].
      intros [= <-]. split; [exact B|reflexivity].
    + intros [= <-]. split; [exact B|reflexivity].
Qed.

Lemma construction_rejects_variable_clip_witness :
  RescaleBase.__init__ Example.variable_clip Example.bicubic
    Example.artcnn Example.hermite None 0 = Error VariableFormatError
  /\ Rescale.__init__ (Example.from_args Example.args_720) Example.variable_clip (Int 720)
       Example.bicubic Example.artcnn Example.hermite None None None
       Example.no_crop (0 # 1, 0 # 1)%Q None 0 = Error VariableFormatError.
Proof.
  pose proof (construction_rejects_variable_clip (Example.from_args Example.args_720)
                Example.variable_clip (Int 720) Example.bicubic
                Example.artcnn Example.hermite None None None Example.no_crop
                (0 # 1, 0 # 1)%Q None 0) as W.
  cbv zeta in W. destruct W as [W _].
  destruct (W (or_introl eq_refl)) as (W1 & _ & _ & _ & W2).
  split; [exact W1|]. exact (W2 _ eq_refl).
Defined.

(** With a [from_args] that divides by the height of the clip, constructing
    a [Rescale] on a clip of variable format and resolution fails in
    [from_args], with an error that is not an invalid-input error: the check
    is not reached. *)
Lemma rescale_variable_clip_error_not_invalid_input :
  format Example.variable_clip = None
  /\ height Example.variable_clip = 0
  /\ Rescale.__init__ (Example.from_args_dividing Example.args_720) Example.variable_clip
       (Int 720) Example.bicubic Example.artcnn Example.hermite None None None
       Example.no_crop (0 # 1, 0 # 1)%Q None 0
     = Error (ExternalError "ZeroDivisionError")
  /\ is_invalid_input (ExternalError "ZeroDivisionError") = false.
Proof. repeat split. Qed.

(** ** Restoring the cropped borders *)

Lemma get_y_dims (c : VideoNode) :
  width (get_y c) = width c /\ height (get_y c) = height c.
Proof.
  unfold get_y, plane. destruct (format c) as [f|]; [|split; reflexivity].
  destruct (Nat.eqb (num_planes f) 1 && Nat.eqb 0 0)%bool; split; reflexivity.
Qed.

Lemma get_y_pixel (engine : VideoNode -> Z -> Z -> Z) (c : VideoNode) (x y : Z) :
  pixel engine (get_y c) x y = pixel engine c x y.
Proof.
  unfold get_y, plane. destruct (format c) as [f|]; [|reflexivity].
  now destruct (Nat.eqb (num_planes f) 1 && Nat.eqb 0 0)%bool.
Qed.

(** The luma plane [split] returns first has the clip's dimensions. *)
Lemma split_luma_dims (c luma : VideoNode) (chroma : list VideoNode) :
  split c = luma :: chroma -> width luma = width c /\ height luma = height c.
Proof.
  unfold split. destruct (format c) as [f|]; [|discriminate].
  unfold num_planes. destruct (color_family f); cbn; intros [= <- _]; split; reflexivity.
Qed.

(** The steps before the crop step keep the dimensions of the luma plane
    and do not touch the crop or the original clip. *)
Lemma merge_line_mask_frame (self : Rescale.t) (upscale : VideoNode) :
  let luma := RescaleBase.clipy (Rescale.base self) in
  let out := Rescale.merge_line_mask upscale self in
  (width upscale = width luma -> width (fst out) = width luma)
  /\ (height upscale = height luma -> height (fst out) = height luma)
  /\ Rescale._crop (snd out) = Rescale._crop self
  /\ Rescale._pre (snd out) = Rescale._pre self
  /\ Rescale.base (snd out) = Rescale.base self
  /\ Rescale._credit_mask (snd out) = Rescale._credit_mask self.
Proof.
  cbv zeta. rewrite merge_line_mask_eq.
  destruct (truthy (Rescale._line_mask self)
            || truthy (RescaleBase.border_handling (Rescale.base self)))%bool;
    cbn; repeat split; auto.
Qed.

Lemma merge_credit_mask_frame (self : Rescale.t) (upscale : VideoNode) :
  let out := Rescale.merge_credit_mask upscale self in
  width (fst out) = width upscale /\ height (fst out) = height upscale /\ snd out = self.
Proof.
  cbv zeta. rewrite merge_credit_mask_eq.
  destruct (Rescale._credit_mask self); repeat split.
Qed.

(** The crop step: borders added back, then a merge with the luma of the
    original clip under a mask at peak on the borders and zero inside. *)
Lemma restore_crop_spec (engine : VideoNode -> Z -> Z -> Z) (self : Rescale.t)
    (upscale : VideoNode) :
  let crop := Rescale._crop self in
  let pre_y := get_y (Rescale._pre self) in
  let bordered :=
    AddBorders upscale (crop_left crop) (crop_right crop) (crop_top crop) (crop_bottom crop) in
  tuple_gt (crop_tuple crop) [0; 0; 0; 0] = true ->
  0 < get_peak_value pre_y ->
  exists mask,
    Rescale.restore_crop upscale self = MaskedMerge bordered pre_y mask
    /\ (forall x y,
          pixel engine mask x y =
            if ((x <? crop_left crop) || (width pre_y - crop_right crop <=? x)
                || ((y <? crop_top crop) || (height pre_y - crop_bottom crop <=? y)))%bool
            then get_peak_value pre_y else 0)
    /\ (forall x y,
          pixel engine (Rescale.restore_crop upscale self) x y =
            if ((x <? crop_left crop) || (width pre_y - crop_right crop <=? x)
                || ((y <? crop_top crop) || (height pre_y - crop_bottom crop <=? y)))%bool
            then pixel engine pre_y x y else pixel engine bordered x y).
Proof.
  intros crop pre_y bordered Hcrop Hpeak.
  unfold Rescale.restore_crop. fold crop. rewrite Hcrop. fold pre_y. fold bordered.
  set (black := BlankClip pre_y None None).
  set (mask := NormExpr black _).
  assert (Hmask : forall x y,
            pixel engine mask x y =
              if ((x <? crop_left crop) || (width pre_y - crop_right crop <=? x)
                  || ((y <? crop_top crop) || (height pre_y - crop_bottom crop <=? y)))%bool
              then get_peak_value pre_y else 0).
  { intros x y. subst mask. cbn [pixel]. unfold in_region_border, _get_region_expr.
    cbn [re_left re_xmax re_top re_ymax re_border re_inside fst snd].
    subst black. cbn [width height].
    replace (width pre_y - (crop_right crop + 1) <? x)
      with (width pre_y - crop_right crop <=? x)
      by (destruct (Z.leb_spec (width pre_y - crop_right crop) x),
                   (Z.ltb_spec (width pre_y - (crop_right crop + 1)) x); lia).
    replace (height pre_y - (crop_bottom crop + 1) <? y)
      with (height pre_y - crop_bottom crop <=? y)
      by (destruct (Z.leb_spec (height pre_y - crop_bottom crop) y),
                   (Z.ltb_spec (height pre_y - (crop_bottom crop + 1)) y); lia).
    now destruct ((x <? crop_left crop) || (width pre_y - crop_right crop <=? x)
                  || ((y <? crop_top crop) || (height pre_y - crop_bottom crop <=? y)))%bool. }
  exists mask. split; [reflexivity|]. split; [exact Hmask|].
  intros x y. cbn [pixel]. rewrite Hmask.
  change (get_peak_value mask) with (get_peak_value pre_y).
  destruct ((x <? crop_left crop) || (width pre_y - crop_right crop <=? x)
            || ((y <? crop_top crop) || (height pre_y - crop_bottom crop <=? y)))%bool.
  - now apply merge_sample_opaque.
  - now apply merge_sample_transparent.
Qed.

(** Reading [doubled] leaves the crop, the original clip and the planes as
    the constructor set them. *)
Lemma doubled_frame (self : Rescale.t) :
  let self' := snd (RescaleBase.doubled self) in
  Rescale._crop self' = Rescale._crop self
  /\ Rescale._pre self' = Rescale._pre self
  /\ RescaleBase.clipy (Rescale.base self') = RescaleBase.clipy (Rescale.base self)
  /\ RescaleBase.chroma (Rescale.base self') = RescaleBase.chroma (Rescale.base self).
Proof.
  cbv zeta. unfold RescaleBase.doubled, RescaleBase.descale, RescaleBase.cached_property.
  cbn [RescaleBase.attrs Rescale.self_t RescaleBase.with_attrs
       RescaleBase.self_generate_descale RescaleBase.self_generate_doubled Rescale.methods_t].
  destruct (RescaleBase.__dict__ (Rescale.base self) !! "doubled"); [repeat split|].
  destruct (RescaleBase.__dict__ (Rescale.base self) !! "descale").
  - repeat split.
  - unfold Rescale._generate_descale. destruct (Rescale._ignore_mask self).
    + cbn. destruct (truthy (RescaleBase.field_based (Rescale.base self))); repeat split.
    + cbn. destruct (truthy (RescaleBase.field_based (Rescale.base self))); repeat split.
Qed.

Lemma peak_positive (c : VideoNode) : 0 < bits c -> 0 < get_peak_value c.
Proof.
  intros Hb. unfold get_peak_value.
  assert (2 ^ 1 <= 2 ^ bits c) by (apply Z.pow_le_mono_r; lia).
  change (2 ^ 1) with 2 in *. lia.
Qed.

Lemma get_y_bits (c : VideoNode) : bits (get_y c) = bits c.
Proof.
  unfold get_y, plane, bits. destruct (format c) as [f|] eqn:E; cbn [format].
  - destruct (Nat.eqb (num_planes f) 1 && Nat.eqb 0 0)%bool; cbn [format]; now rewrite E.
  - now rewrite E.
Qed.

Lemma all_positive_crop_gt (crop : CropRel) :
  0 < crop_left crop -> tuple_gt (crop_tuple crop) [0; 0; 0; 0] = true.
Proof.
  intros Hl. unfold crop_tuple. cbn [tuple_gt].
  destruct (Z.eqb_spec (crop_left crop) 0); [lia|]. now apply Z.ltb_lt.
Qed.

(** C6.  Take an object constructed with a crop whose four amounts are
    positive, on a clip of positive bit depth, and any masks assigned
    afterwards.  The clip its [upscale] property computes is the join of the
    chroma planes with [MaskedMerge(upscaled.AddBorders(crop), luma of the
    original clip, mask)], where the upscaled clip has the cropped dimensions
    and the mask is at peak exactly on the borders and zero inside.  It has
    the dimensions of the original clip, and on the borders every sample is
    the sample of the original luma. *)
Theorem crop_borders_restored
    (engine : VideoNode -> Z -> Z -> Z)
    (from_args : from_args_t) (clip : VideoNode)
    (target_height : Number) (kernel : Kernel) (upscaler downscaler : Scaler)
    (target_width : option Number) (base_height base_width : option Z)
    (crop : CropRel) (shift : Q * Q)
    (field_based : option FieldBased) (border_handling : Z)
    (line credit ignore : option VideoNode) (constructed : Rescale.t) :
  0 < crop_left crop -> 0 < crop_right crop ->
  0 < crop_top crop -> 0 < crop_bottom crop ->
  0 < bits clip ->
  Rescale.__init__ from_args clip target_height kernel upscaler downscaler
    target_width base_height base_width crop shift field_based border_handling
    = Ok constructed ->
  let self :=
    Rescale.set_ignore_mask ignore
      (Rescale.set_credit_mask credit (Rescale.set_line_mask line constructed)) in
  let out := fst (RescaleBase.upscale self) in
  let pre_y := get_y clip in
  let on_border := fun x y =>
    ((x <? crop_left crop) || (width clip - crop_right crop <=? x)
     || ((y <? crop_top crop) || (height clip - crop_bottom crop <=? y)))%bool in
  width out = width clip
  /\ height out = height clip
  /\ (exists upscaled mask chroma,
        out = Join (MaskedMerge
                      (AddBorders upscaled (crop_left crop) (crop_right crop)
                         (crop_top crop) (crop_bottom crop))
                      pre_y mask :: chroma)
        /\ width upscaled = width clip - crop_left crop - crop_right crop
        /\ height upscaled = height clip - crop_top crop - crop_bottom crop
        /\ forall x y,
             pixel engine mask x y = if on_border x y then get_peak_value pre_y else 0)
  /\ forall x y, on_border x y = true -> pixel engine out x y = pixel engine pre_y x y.
Proof.
  intros Hl Hr Ht Hb Hbits Hinit self out pre_y on_border.
  (* what the constructor built *)
  unfold Rescale.__init__ in Hinit.
  destruct (from_args _ _ _ _ _ _ _ _ _) as [a|]; [|discriminate].
  destruct (RescaleBase.__init__ clip kernel upscaler downscaler field_based
              border_handling) as [b|] eqn:Eb; [|discriminate].
  cbn [Rescale._crop Rescale.base RescaleBase.clipy] in Hinit.
  rewrite (all_positive_crop_gt crop Hl) in Hinit.
  unfold std_Crop in Hinit.
  match type of Hinit with
  | context [if ?c then Ok (Crop _ _ _ _ _) else _] => destruct c; [|discriminate]
  end.
  injection Hinit as <-.
  unfold RescaleBase.__init__ in Eb.
  destruct (check_variable clip); [|discriminate].
  destruct (split clip) as [|luma chroma] eqn:Es; [discriminate|].
  destruct (BorderHandling_of_int border_handling) as [bh|]; [|discriminate].
  injection Eb as <-.
  destruct (split_luma_dims _ _ _ Es) as [Hw Hh].
  (* the first read of upscale *)
  assert (Hmiss : RescaleBase.__dict__ (Rescale.base self) !! "upscale" = None)
    by (subst self; destruct line, credit, ignore; reflexivity).
  assert (Hself : Rescale._crop self = crop /\ Rescale._pre self = clip
                  /\ RescaleBase.clipy (Rescale.base self)
                     = Crop luma (crop_left crop) (crop_right crop)
                         (crop_top crop) (crop_bottom crop))
    by (subst self; destruct line, credit, ignore; repeat split).
  destruct Hself as (Hcrop & Hpre & Hluma).
  subst out. unfold RescaleBase.upscale, RescaleBase.cached_property.
  cbn [RescaleBase.attrs Rescale.self_t RescaleBase.with_attrs
       RescaleBase.self_generate_upscale Rescale.methods_t].
  rewrite Hmiss.
  pose proof (doubled_frame self) as F1. cbv zeta in F1.
  destruct (RescaleBase.doubled self) as [d s1]. cbn [snd] in F1.
  destruct F1 as (C1 & P1 & Y1 & _).
  rewrite generate_upscale_stages. cbv zeta.
  set (u0 := fst (call RescaleBase._generate_upscale s1 d)).
  pose proof (merge_line_mask_frame s1 u0) as F2. cbv zeta in F2.
  destruct (Rescale.merge_line_mask u0 s1) as [u1 s2]. cbn [fst snd] in F2.
  destruct F2 as (W2 & H2 & C2 & P2 & B2 & _).
  specialize (W2 eq_refl). specialize (H2 eq_refl).
  pose proof (merge_credit_mask_frame s2 u1) as F3. cbv zeta in F3.
  destruct (Rescale.merge_credit_mask u1 s2) as [u2 s3]. cbn [fst snd] in F3.
  destruct F3 as (W3 & H3 & ->).
  assert (Hc : Rescale._crop s2 = crop) by congruence.
  assert (Hp : Rescale._pre s2 = clip) by congruence.
  assert (Wu : width u2 = width clip - crop_left crop - crop_right crop).
  { rewrite W3, W2, Y1, Hluma. cbn [width]. lia. }
  assert (Hu : height u2 = height clip - crop_top crop - crop_bottom crop).
  { rewrite H3, H2, Y1, Hluma. cbn [height]. lia. }
  destruct (get_y_dims clip) as [Wy Hy].
  destruct (restore_crop_spec engine s2 u2) as (mask & Em & Pm & Po).
  { rewrite Hc. now apply all_positive_crop_gt. }
  { rewrite Hp. apply peak_positive. now rewrite get_y_bits. }
  rewrite Hc, Hp in Em, Pm, Po. rewrite Wy, Hy in Pm, Po.
  fold pre_y in Em, Pm, Po.
  cbn [fst].
  split; [rewrite Em; cbn [width]; lia|]. split; [rewrite Em; cbn [height]; lia|]. split.
  - rewrite Em. eexists u2, mask, _. split; [reflexivity|]. repeat split; assumption.
  - intros x y Hxy. cbn [pixel]. rewrite Po.
    fold (on_border x y). now rewrite Hxy.
Qed.

Lemma crop_borders_restored_witness :
  let out := fst (RescaleBase.upscale Example.cropped) in
  width out = 1920 /\ height out = 1080
  /\ pixel Example.engine out 3 500 = pixel Example.engine (get_y Example.clip) 3 500
  /\ pixel Example.engine out 1914 500 = pixel Example.engine (get_y Example.clip) 1914 500
  /\ pixel Example.engine out 700 1 = pixel Example.engine (get_y Example.clip) 700 1
  /\ pixel Example.engine out 700 1072 = pixel Example.engine (get_y Example.clip) 700 1072.
Proof.
  pose proof (crop_borders_restored Example.engine (Example.from_args Example.args_720)
                Example.clip (Int 720) Example.bicubic Example.artcnn Example.hermite
                None None None Example.crop_4_6_2_8 (0 # 1, 0 # 1)%Q None 0
                None None None Example.cropped
                eq_refl eq_refl eq_refl eq_refl eq_refl eq_refl) as W.
  cbv zeta in W. destruct W as (W1 & W2 & _ & W3).
  split; [exact W1|]. split; [exact W2|].
  repeat split; apply W3; reflexivity.
Defined.

(** * Further properties of the module *)

(** ** Masks and the cache *)

(** X1.  Assigning or reading a mask never touches the cached entries, and
    neither does the statement [del] on a mask, which raises and changes
    nothing: a derived property that is cached is answered with the same clip
    after any of these operations, whatever the new mask and the recursion
    limit. *)
Theorem mask_operations_keep_cached_clips
    (self : Rescale.t) (mask : option VideoNode) (frames : nat)
    (attrname : string) (property : Rescale.t -> VideoNode * Rescale.t) (cached : VideoNode) :
  In (attrname, property)
     [("descale", RescaleBase.descale); ("rescale", RescaleBase.rescale);
      ("doubled", RescaleBase.doubled); ("upscale", RescaleBase.upscale)] ->
  RescaleBase.__dict__ (Rescale.base self) !! attrname = Some cached ->
  Forall
    (fun operation : Rescale.t -> Rescale.t =>
       RescaleBase.__dict__ (Rescale.base (operation self))
         = RescaleBase.__dict__ (Rescale.base self)
       /\ property (operation self) = (cached, operation self))
    [Rescale.set_line_mask mask;
     Rescale.set_credit_mask mask;
     Rescale.set_ignore_mask mask;
     fun s => snd (Rescale.line_mask s);
     fun s => snd (Rescale.credit_mask s);
     fun s => snd (Rescale.ignore_mask s);
     fun s => snd (Rescale.del_line_mask frames s);
     fun s => snd (Rescale.del_credit_mask frames s);
     fun s => snd (Rescale.del_ignore_mask frames s)].
Proof.
  intros Hin Hc.
  assert (G : forall operation : Rescale.t -> Rescale.t,
             RescaleBase.__dict__ (Rescale.base (operation self))
               = RescaleBase.__dict__ (Rescale.base self) ->
             RescaleBase.__dict__ (Rescale.base (operation self))
               = RescaleBase.__dict__ (Rescale.base self)
             /\ property (operation self) = (cached, operation self)).
  { intros operation E. split; [exact E|].
    cbn [In] in Hin.
    destruct Hin as [[= <- <-]|[[= <- <-]|[[= <- <-]|[[= <- <-]|[]]]]];
      unfold RescaleBase.descale, RescaleBase.rescale, RescaleBase.doubled,
        RescaleBase.upscale, RescaleBase.cached_property;
      cbn [RescaleBase.attrs Rescale.self_t]; now rewrite E, Hc. }
  assert (Ec : RescaleBase.__dict__ (Rescale.base (snd (Rescale.credit_mask self)))
               = RescaleBase.__dict__ (Rescale.base self))
    by (unfold Rescale.credit_mask; destruct (Rescale._credit_mask self); reflexivity).
  assert (Ei : RescaleBase.__dict__ (Rescale.base (snd (Rescale.ignore_mask self)))
               = RescaleBase.__dict__ (Rescale.base self))
    by (unfold Rescale.ignore_mask; destruct (Rescale._ignore_mask self); reflexivity).
  assert (Ed : forall name,
             RescaleBase.__dict__
               (Rescale.base (snd (RescaleBase.__delattr__ frames self name)))
             = RescaleBase.__dict__ (Rescale.base self))
    by (intros name; now rewrite delattr_recursion).
  apply List.Forall_cons; [apply G; reflexivity|].
  apply List.Forall_cons; [apply G; reflexivity|].
  apply List.Forall_cons; [apply G; reflexivity|].
  apply List.Forall_cons; [apply (G (fun s => snd (Rescale.line_mask s))); reflexivity|].
  apply List.Forall_cons; [apply (G (fun s => snd (Rescale.credit_mask s))); exact Ec|].
  apply List.Forall_cons; [apply (G (fun s => snd (Rescale.ignore_mask s))); exact Ei|].
  apply List.Forall_cons;
    [apply (G (fun s => snd (Rescale.del_line_mask frames s))); apply Ed|].
  apply List.Forall_cons;
    [apply (G (fun s => snd (Rescale.del_credit_mask frames s))); apply Ed|].
  apply List.Forall_cons;
    [apply (G (fun s => snd (Rescale.del_ignore_mask frames s))); apply Ed|].
  apply List.Forall_nil.
Qed.

Lemma mask_operations_keep_cached_clips_witness :
  let self := Example.all_cached in
  let changed := Rescale.set_ignore_mask (Some Example.user_mask) self in
  fst (RescaleBase.descale changed) = fst (RescaleBase.descale self)
  /\ fst (RescaleBase.descale changed) <> fst (RescaleBase.descale Example.with_ignore_mask).
Proof.
  intros self changed.
  destruct (RescaleBase.__dict__ (Rescale.base self) !! "descale") as [v|] eqn:E;
    [|vm_compute in E; discriminate].
  pose proof (mask_operations_keep_cached_clips self (Some Example.user_mask)
                Example.recursion_limit
                "descale" RescaleBase.descale v (or_introl eq_refl) E) as W.
  rewrite !Forall_cons in W. destruct W as (_ & _ & (_ & W) & _).
  subst changed. rewrite W. split.
  - unfold RescaleBase.descale, RescaleBase.cached_property.
    cbn [RescaleBase.attrs Rescale.self_t]. now rewrite E.
  - cbn [fst]. vm_compute in E. injection E as <-. vm_compute. discriminate.
Defined.

(** X2.  [del self.name] fails for every attribute name, not only for the
    derived entries: whatever the object, the name and the recursion limit,
    the statement raises [RecursionError] and leaves every attribute,
    cached or not, as it was. *)
Theorem delattr_never_removes (depth : nat) (name : string) :
  (forall self : RescaleBase.t,
     RescaleBase.__delattr__ depth self name = (Error RecursionError, self))
  /\ (forall self : Rescale.t,
        RescaleBase.__delattr__ depth self name = (Error RecursionError, self)
        /\ forall attrname,
             RescaleBase.__dict__
               (Rescale.base (snd (RescaleBase.__delattr__ depth self name))) !! attrname
             = RescaleBase.__dict__ (Rescale.base self) !! attrname).
Proof.
  split; intros self; [apply delattr_recursion|].
  rewrite delattr_recursion. now split.
Qed.

(** ** Construction *)

Lemma split_constant (clip : VideoNode) (f : VideoFormat) :
  format clip = Some f ->
  split clip = plane clip 0 :: match color_family f with
                               | GRAY => []
                               | _ => [ShufflePlanes clip 1; ShufflePlanes clip 2]
                               end.
Proof.
  intros E. unfold split, plane, num_planes. rewrite E.
  now destruct (color_family f).
Qed.

(** The outcomes of [RescaleBase.__init__]. *)
Lemma base_init_cases
    (clip : VideoNode) (kernel : Kernel)
    (upscaler downscaler : Scaler) (field_based : option FieldBased)
    (border_handling : Z) :
  match RescaleBase.__init__ clip kernel upscaler downscaler
          field_based border_handling with
  | Ok attributes =>
      check_variable clip = Ok tt
      /\ 0 <= border_handling <= 2
      /\ BorderHandling_value (RescaleBase.assigned_border_handling attributes)
         = border_handling
      /\ RescaleBase.assigned_clipy attributes = get_y clip
      /\ RescaleBase.assigned_clipy attributes :: RescaleBase.assigned_chroma attributes
         = split clip
      /\ RescaleBase.assigned_kernel attributes = kernel
      /\ RescaleBase.assigned_upscaler attributes = upscaler
      /\ RescaleBase.assigned_downscaler attributes = downscaler
      /\ RescaleBase.assigned_field_based attributes = field_based
  | Error e =>
      (check_variable clip = Error e
       /\ (e = VariableFormatError \/ e = VariableResolutionError))
      \/ (check_variable clip = Ok tt
          /\ BorderHandling_of_int border_handling = Error e
          /\ (border_handling < 0 \/ 2 < border_handling))
  end.
Proof.
  unfold RescaleBase.__init__, check_variable.
  destruct (format clip) as [f|] eqn:Ef; [|left; split; [reflexivity|now left]].
  destruct ((width clip =? 0) || (height clip =? 0))%bool;
    [left; split; [reflexivity|now right]|].
  rewrite (split_constant clip f Ef).
  unfold BorderHandling_of_int.
  destruct (Z.eqb_spec border_handling 0) as [->|H0];
    [repeat split; try lia; now rewrite (split_constant _ f Ef)|].
  destruct (Z.eqb_spec border_handling 1) as [->|H1];
    [repeat split; try lia; now rewrite (split_constant _ f Ef)|].
  destruct (Z.eqb_spec border_handling 2) as [->|H2];
    [repeat split; try lia; now rewrite (split_constant _ f Ef)|].
  right. repeat split. lia.
Qed.

(** X3.  [RescaleBase.__init__], given the kernel and the scalers as objects
    and the field order as a member or [None], checks the clip before
    anything else: a clip of variable format or resolution fails with the
    error of the check whatever the other arguments.  On a clip that passes,
    the only call left that fails is [BorderHandling(int(border_handling))],
    and it does for an integer other than 0, 1 and 2, with the error of the
    enumeration.  When the constructor returns it has assigned the luma
    plane as [clipy], the other planes as [chroma], the member of that value
    as border handling, and the kernel, the scalers and the field order it
    was given. *)
Theorem base_construction_outcome
    (clip : VideoNode) (kernel : Kernel)
    (upscaler downscaler : Scaler) (field_based : option FieldBased)
    (border_handling : Z) :
  match RescaleBase.__init__ clip kernel upscaler downscaler
          field_based border_handling with
  | Ok attributes =>
      check_variable clip = Ok tt
      /\ 0 <= border_handling <= 2
      /\ BorderHandling_value (RescaleBase.assigned_border_handling attributes)
         = border_handling
      /\ RescaleBase.assigned_clipy attributes = get_y clip
      /\ RescaleBase.assigned_clipy attributes :: RescaleBase.assigned_chroma attributes
         = split clip
      /\ RescaleBase.assigned_kernel attributes = kernel
      /\ RescaleBase.assigned_upscaler attributes = upscaler
      /\ RescaleBase.assigned_downscaler attributes = downscaler
      /\ RescaleBase.assigned_field_based attributes = field_based
  | Error e =>
      (check_variable clip = Error e
       /\ (e = VariableFormatError \/ e = VariableResolutionError))
      \/ (check_variable clip = Ok tt
          /\ BorderHandling_of_int border_handling = Error e
          /\ (border_handling < 0 \/ 2 < border_handling))
  end.
Proof. apply base_init_cases. Qed.

(** X4.  The crop test [self._crop > (0, 0, 0, 0)] compares the tuples from
    the left: the crop is applied exactly when the first amount that is not
    zero is positive.  With amounts that are all non-negative this is
    whenever one of them is positive; a crop whose first non-zero amount is
    negative is ignored, whatever follows. *)
Theorem crop_test_is_lexicographic (crop : CropRel) :
  let l := crop_left crop in
  let r := crop_right crop in
  let t := crop_top crop in
  let b := crop_bottom crop in
  (tuple_gt (crop_tuple crop) [0; 0; 0; 0] = true <->
   0 < l \/ (l = 0 /\ (0 < r \/ (r = 0 /\ (0 < t \/ (t = 0 /\ 0 < b))))))
  /\ (0 <= l -> 0 <= r -> 0 <= t -> 0 <= b ->
      (tuple_gt (crop_tuple crop) [0; 0; 0; 0] = true <-> 0 < l + r + t + b))
  /\ (l < 0 -> tuple_gt (crop_tuple crop) [0; 0; 0; 0] = false).
Proof.
  intros l r t b.
  assert (E : tuple_gt (crop_tuple crop) [0; 0; 0; 0] = true <->
              0 < l \/ (l = 0 /\ (0 < r \/ (r = 0 /\ (0 < t \/ (t = 0 /\ 0 < b)))))).
  { unfold crop_tuple. cbn [tuple_gt]. fold l r t b.
    destruct (Z.eqb_spec l 0), (Z.eqb_spec r 0), (Z.eqb_spec t 0), (Z.eqb_spec b 0);
      rewrite ?Z.ltb_lt; split; intros; try discriminate; try lia. }
  split; [exact E|]. split.
  - intros. rewrite E. lia.
  - intros Hl. destruct (tuple_gt (crop_tuple crop) [0; 0; 0; 0]); [|reflexivity].
    destruct E as [E _]. specialize (E eq_refl). lia.
Qed.

Lemma crop_test_is_lexicographic_witness :
  tuple_gt (crop_tuple {| crop_left := -2; crop_right := 6; crop_top := 2; crop_bottom := 8 |})
    [0; 0; 0; 0] = false
  /\ (tuple_gt (crop_tuple Example.crop_4_6_2_8) [0; 0; 0; 0] = true <-> 0 < 4 + 6 + 2 + 8).
Proof.
  pose proof (crop_test_is_lexicographic
                {| crop_left := -2; crop_right := 6; crop_top := 2; crop_bottom := 8 |}) as W.
  pose proof (crop_test_is_lexicographic Example.crop_4_6_2_8) as V.
  cbv zeta in W, V. destruct W as (_ & _ & W). destruct V as (_ & V & _).
  split; [apply W; reflexivity|]. apply V; discriminate.
Defined.

(** ** What a read caches *)

(** The generators of [Rescale] write nothing but the mode of the
    arguments. *)
Lemma rescale_generate_descale_state (self : Rescale.t) (clip : VideoNode) :
  snd (Rescale._generate_descale self clip)
  = match Rescale._ignore_mask self with
    | Some _ => Rescale.set_mode "hw" self
    | None => self
    end.
Proof.
  unfold Rescale._generate_descale. destruct (Rescale._ignore_mask self); cbn;
    destruct (RescaleBase.field_based (Rescale.base self)) as [[]|]; reflexivity.
Qed.

Lemma rescale_generate_descale_dict (self : Rescale.t) (clip : VideoNode) :
  RescaleBase.__dict__ (Rescale.base (snd (Rescale._generate_descale self clip)))
  = RescaleBase.__dict__ (Rescale.base self).
Proof.
  rewrite rescale_generate_descale_state. now destruct (Rescale._ignore_mask self).
Qed.

Lemma rescale_generate_upscale_dict (self : Rescale.t) (clip : VideoNode) :
  RescaleBase.__dict__ (Rescale.base (snd (Rescale._generate_upscale self clip)))
  = RescaleBase.__dict__ (Rescale.base self).
Proof.
  rewrite generate_upscale_stages. cbv zeta.
  pose proof (merge_line_mask_frame self
                (fst (call RescaleBase._generate_upscale self clip))) as F.
  cbv zeta in F.
  destruct (Rescale.merge_line_mask _ self) as [u1 s1]. cbn [fst snd] in F.
  destruct F as (_ & _ & _ & _ & B & _).
  pose proof (merge_credit_mask_frame s1 u1) as G. cbv zeta in G.
  destruct (Rescale.merge_credit_mask u1 s1) as [u2 s2]. cbn [fst snd] in G.
  destruct G as (_ & _ & ->). cbn [snd]. now rewrite B.
Qed.

(** The generators of [RescaleBase] write nothing. *)
Lemma base_generators_state {T : Type} `{RescaleBase.Self T} (self : T) (clip : VideoNode) :
  snd (call RescaleBase._generate_descale self clip) = self
  /\ snd (call RescaleBase._generate_rescale self clip) = self
  /\ snd (call RescaleBase._generate_doubled self clip) = self
  /\ snd (call RescaleBase._generate_upscale self clip) = self.
Proof.
  cbn. destruct (truthy (RescaleBase.field_based (RescaleBase.attrs self))); repeat split.
Qed.

(** A read through [cached_property], by whether the entry is there. *)
Lemma cached_property_hit (attrname : string)
    (func : Rescale.t -> VideoNode * Rescale.t) (self : Rescale.t) (v : VideoNode) :
  RescaleBase.__dict__ (Rescale.base self) !! attrname = Some v ->
  RescaleBase.cached_property attrname func self = (v, self).
Proof.
  intros E. unfold RescaleBase.cached_property.
  cbn [RescaleBase.attrs Rescale.self_t]. now rewrite E.
Qed.

Lemma cached_property_miss (attrname : string)
    (func : Rescale.t -> VideoNode * Rescale.t) (self : Rescale.t) :
  RescaleBase.__dict__ (Rescale.base self) !! attrname = None ->
  fst (RescaleBase.cached_property attrname func self) = fst (func self)
  /\ RescaleBase.__dict__
       (Rescale.base (snd (RescaleBase.cached_property attrname func self)))
     = <[attrname := fst (func self)]>
         (RescaleBase.__dict__ (Rescale.base (snd (func self))))
  /\ Rescale.set_base (Rescale.base (snd (func self)))
       (snd (RescaleBase.cached_property attrname func self))
     = snd (func self).
Proof.
  intros E. unfold RescaleBase.cached_property.
  cbn [RescaleBase.attrs Rescale.self_t]. rewrite E.
  destruct (func self) as [v [b lm cm im c p]]. repeat split.
Qed.

(** The entries after each read, in terms of the entries before it. *)
Lemma descale_entries (self : Rescale.t) :
  RescaleBase.__dict__ (Rescale.base (snd (RescaleBase.descale self)))
  = match RescaleBase.__dict__ (Rescale.base self) !! "descale" with
    | Some _ => RescaleBase.__dict__ (Rescale.base self)
    | None => <["descale" := fst (RescaleBase.descale self)]>
                (RescaleBase.__dict__ (Rescale.base self))
    end.
Proof.
  destruct (RescaleBase.__dict__ (Rescale.base self) !! "descale") eqn:E.
  - unfold RescaleBase.descale. now rewrite (cached_property_hit _ _ _ _ E).
  - unfold RescaleBase.descale.
    destruct (cached_property_miss "descale"
                (fun s => RescaleBase.self_generate_descale s
                            (RescaleBase.clipy (RescaleBase.attrs s))) self E)
      as (-> & -> & _).
    cbn [RescaleBase.self_generate_descale Rescale.methods_t].
    now rewrite rescale_generate_descale_dict.
Qed.

Lemma rescale_entries (self : Rescale.t) :
  RescaleBase.__dict__ (Rescale.base (snd (RescaleBase.rescale self)))
  = match RescaleBase.__dict__ (Rescale.base self) !! "rescale" with
    | Some _ => RescaleBase.__dict__ (Rescale.base self)
    | None => <["rescale" := fst (RescaleBase.rescale self)]>
                (RescaleBase.__dict__ (Rescale.base (snd (RescaleBase.descale self))))
    end.
Proof.
  destruct (RescaleBase.__dict__ (Rescale.base self) !! "rescale") eqn:E.
  - unfold RescaleBase.rescale. now rewrite (cached_property_hit _ _ _ _ E).
  - unfold RescaleBase.rescale.
    destruct (cached_property_miss "rescale"
                (fun s => let '(d, s) := RescaleBase.descale s in
                          RescaleBase.self_generate_rescale s d) self E)
      as (-> & -> & _).
    destruct (RescaleBase.descale self) as [d s1].
    cbn [RescaleBase.self_generate_rescale Rescale.methods_t snd].
    now rewrite (proj1 (proj2 (base_generators_state s1 d))).
Qed.

Lemma doubled_entries (self : Rescale.t) :
  RescaleBase.__dict__ (Rescale.base (snd (RescaleBase.doubled self)))
  = match RescaleBase.__dict__ (Rescale.base self) !! "doubled" with
    | Some _ => RescaleBase.__dict__ (Rescale.base self)
    | None => <["doubled" := fst (RescaleBase.doubled self)]>
                (RescaleBase.__dict__ (Rescale.base (snd (RescaleBase.descale self))))
    end.
Proof.
  destruct (RescaleBase.__dict__ (Rescale.base self) !! "doubled") eqn:E.
  - unfold RescaleBase.doubled. now rewrite (cached_property_hit _ _ _ _ E).
  - unfold RescaleBase.doubled.
    destruct (cached_property_miss "doubled"
                (fun s => let '(d, s) := RescaleBase.descale s in
                          RescaleBase.self_generate_doubled s d) self E)
      as (-> & -> & _).
    destruct (RescaleBase.descale self) as [d s1].
    cbn [RescaleBase.self_generate_doubled Rescale.methods_t snd].
    reflexivity.
Qed.

Lemma upscale_entries (self : Rescale.t) :
  RescaleBase.__dict__ (Rescale.base (snd (RescaleBase.upscale self)))
  = match RescaleBase.__dict__ (Rescale.base self) !! "upscale" with
    | Some _ => RescaleBase.__dict__ (Rescale.base self)
    | None => <["upscale" := fst (RescaleBase.upscale self)]>
                (RescaleBase.__dict__ (Rescale.base (snd (RescaleBase.doubled self))))
    end.
Proof.
  destruct (RescaleBase.__dict__ (Rescale.base self) !! "upscale") eqn:E.
  - unfold RescaleBase.upscale. now rewrite (cached_property_hit _ _ _ _ E).
  - unfold RescaleBase.upscale.
    destruct (cached_property_miss "upscale"
                (fun s => let '(d, s) := RescaleBase.doubled s in
                          let '(u, s) := RescaleBase.self_generate_upscale s d in
                          (Join (u :: RescaleBase.chroma (RescaleBase.attrs s)), s))
                self E)
      as (-> & -> & _).
    destruct (RescaleBase.doubled self) as [d s1].
    cbn [RescaleBase.self_generate_upscale Rescale.methods_t snd].
    pose proof (rescale_generate_upscale_dict s1 d) as G.
    destruct (Rescale._generate_upscale s1 d) as [u s2]. cbn [fst snd] in *.
    now rewrite G.
Qed.

(** X5.  Reading [upscale] leaves [upscale] and [doubled] cached, and
    [descale] too when [doubled] had to be computed, and does not compute
    [rescale]; reading [rescale] leaves [rescale] and [descale] cached and
    computes neither [doubled] nor [upscale].  Entries that were cached
    before the read are kept as they were. *)
Theorem reads_cache_their_dependencies (self : Rescale.t) :
  let entries := fun s : Rescale.t => RescaleBase.__dict__ (Rescale.base s) in
  (let after := snd (RescaleBase.upscale self) in
   is_Some (entries after !! "upscale")
   /\ (entries self !! "upscale" = None -> is_Some (entries after !! "doubled"))
   /\ (entries self !! "upscale" = None -> entries self !! "doubled" = None ->
       is_Some (entries after !! "descale"))
   /\ entries after !! "rescale" = entries self !! "rescale"
   /\ forall k v, entries self !! k = Some v -> entries after !! k = Some v)
  /\ (let after := snd (RescaleBase.rescale self) in
      is_Some (entries after !! "rescale")
      /\ (entries self !! "rescale" = None -> is_Some (entries after !! "descale"))
      /\ entries after !! "doubled" = entries self !! "doubled"
      /\ entries after !! "upscale" = entries self !! "upscale"
      /\ forall k v, entries self !! k = Some v -> entries after !! k = Some v).
Proof.
  cbv zeta beta.
  rewrite upscale_entries, rescale_entries, doubled_entries, descale_entries.
  destruct (RescaleBase.__dict__ (Rescale.base self) !! "upscale") eqn:Eu,
           (RescaleBase.__dict__ (Rescale.base self) !! "doubled") eqn:Ed,
           (RescaleBase.__dict__ (Rescale.base self) !! "descale") eqn:Es,
           (RescaleBase.__dict__ (Rescale.base self) !! "rescale") eqn:Er;
    repeat split; intros; simplify_map_eq; eauto.
Qed.

Lemma reads_cache_their_dependencies_witness :
  let entries := fun s : Rescale.t => RescaleBase.__dict__ (Rescale.base s) in
  let after := snd (RescaleBase.upscale Example.fresh) in
  is_Some (entries after !! "doubled") /\ is_Some (entries after !! "descale")
  /\ entries after !! "rescale" = None.
Proof.
  pose proof (reads_cache_their_dependencies Example.fresh) as W.
  cbv zeta beta in W. destruct W as ((_ & W1 & W2 & W3 & _) & _).
  split; [apply W1; reflexivity|]. split; [apply W2; reflexivity|].
  cbv zeta beta. rewrite W3. reflexivity.
Defined.

(** ** The order of the reads *)

Lemma cached_property_miss_eq (attrname : string)
    (func : Rescale.t -> VideoNode * Rescale.t) (self : Rescale.t) :
  RescaleBase.__dict__ (Rescale.base self) !! attrname = None ->
  RescaleBase.cached_property attrname func self
  = (fst (func self), cache_store attrname (fst (func self)) (snd (func self))).
Proof.
  intros E. unfold RescaleBase.cached_property.
  cbn [RescaleBase.attrs Rescale.self_t]. rewrite E.
  now destruct (func self).
Qed.




Lemma rescale_miss (self : Rescale.t) :
  RescaleBase.__dict__ (Rescale.base self) !! "rescale" = None ->
  RescaleBase.rescale self
  = (fst (call RescaleBase._generate_rescale (snd (RescaleBase.descale self))
            (fst (RescaleBase.descale self))),
     cache_store "rescale"
       (fst (call RescaleBase._generate_rescale (snd (RescaleBase.descale self))
               (fst (RescaleBase.descale self))))
       (snd (RescaleBase.descale self))).
Proof.
  intros E. unfold RescaleBase.rescale at 1. rewrite (cached_property_miss_eq _ _ _ E).
  destruct (RescaleBase.descale self) as [d sd].
  cbn [RescaleBase.self_generate_rescale Rescale.methods_t fst snd].
  now rewrite (proj1 (proj2 (base_generators_state sd d))).
Qed.

Lemma doubled_miss (self : Rescale.t) :
  RescaleBase.__dict__ (Rescale.base self) !! "doubled" = None ->
  RescaleBase.doubled self
  = (fst (call RescaleBase._generate_doubled (snd (RescaleBase.descale self))
            (fst (RescaleBase.descale self))),
     cache_store "doubled"
       (fst (call RescaleBase._generate_doubled (snd (RescaleBase.descale self))
               (fst (RescaleBase.descale self))))
       (snd (RescaleBase.descale self))).
Proof.
  intros E. unfold RescaleBase.doubled at 1. rewrite (cached_property_miss_eq _ _ _ E).
  destruct (RescaleBase.descale self) as [d sd].
  cbn [RescaleBase.self_generate_doubled Rescale.methods_t fst snd].
  reflexivity.
Qed.


(** ** The clips of a constructed object *)

(** What the first read of [upscale] returns: the chroma planes joined to
    the crop step of a clip that has the dimensions of the luma plane and
    the tag of the upscale. *)
Lemma upscale_first_read (self : Rescale.t) :
  RescaleBase.__dict__ (Rescale.base self) !! "upscale" = None ->
  exists u s,
    fst (RescaleBase.upscale self)
      = Join (Rescale.restore_crop u s :: RescaleBase.chroma (Rescale.base self))
    /\ width u = width (RescaleBase.clipy (Rescale.base self))
    /\ height u = height (RescaleBase.clipy (Rescale.base self))
    /\ frame_prop u "RescaleUpscaleFrom" = Some (tag_data self)
    /\ Rescale._crop s = Rescale._crop self
    /\ Rescale._pre s = Rescale._pre self.
Proof.
  intros Hmiss. unfold RescaleBase.upscale. rewrite (cached_property_miss_eq _ _ _ Hmiss).
  cbn [fst].
  pose proof (doubled_frame self) as F1. cbv zeta in F1.
  assert (T1 : tag_data (snd (RescaleBase.doubled self)) = tag_data self).
  { unfold tag_data, RescaleBase.doubled, RescaleBase.descale, RescaleBase.cached_property.
    cbn [RescaleBase.attrs Rescale.self_t RescaleBase.with_attrs
         RescaleBase.self_generate_descale RescaleBase.self_generate_doubled
         Rescale.methods_t].
    destruct (RescaleBase.__dict__ (Rescale.base self) !! "doubled"); [reflexivity|].
    destruct (RescaleBase.__dict__ (Rescale.base self) !! "descale"); [reflexivity|].
    unfold Rescale._generate_descale. destruct (Rescale._ignore_mask self); cbn;
      destruct (truthy (RescaleBase.field_based (Rescale.base self))); reflexivity. }
  destruct (RescaleBase.doubled self) as [d s1]. cbn [snd] in F1, T1.
  destruct F1 as (C1 & P1 & Y1 & X1).
  cbn [RescaleBase.self_generate_upscale Rescale.methods_t].
  pose proof (rescale_upscale_tagged s1 d) as Tg.
  rewrite generate_upscale_stages in *. cbv zeta in *.
  set (u0 := fst (call RescaleBase._generate_upscale s1 d)) in *.
  assert (Tu0 : frame_prop u0 "RescaleUpscaleFrom" = Some (tag_data s1))
    by apply (base_generators_tagged s1 d).
  pose proof (merge_line_mask_frame s1 u0) as F2. cbv zeta in F2.
  assert (Tl : frame_prop (fst (Rescale.merge_line_mask u0 s1)) "RescaleUpscaleFrom"
               = Some (tag_data s1)).
  { rewrite merge_line_mask_eq.
    now destruct (truthy (Rescale._line_mask s1)
                  || truthy (RescaleBase.border_handling (Rescale.base s1)))%bool. }
  destruct (Rescale.merge_line_mask u0 s1) as [u1 s2]. cbn [fst snd] in F2, Tl.
  destruct F2 as (W2 & H2 & C2 & P2 & B2 & _).
  specialize (W2 eq_refl). specialize (H2 eq_refl).
  pose proof (merge_credit_mask_frame s2 u1) as F3. cbv zeta in F3.
  assert (Tc : frame_prop (fst (Rescale.merge_credit_mask u1 s2)) "RescaleUpscaleFrom"
               = Some (tag_data s1)).
  { rewrite merge_credit_mask_eq. now destruct (Rescale._credit_mask s2). }
  destruct (Rescale.merge_credit_mask u1 s2) as [u2 s3]. cbn [fst snd] in F3, Tc.
  destruct F3 as (W3 & H3 & ->).
  exists u2, s2. cbn [fst snd RescaleBase.attrs Rescale.self_t]. rewrite B2, X1.
  repeat split; congruence.
Qed.

Lemma restore_crop_dims (self : Rescale.t) (upscale : VideoNode) :
  let crop := Rescale._crop self in
  let applied := tuple_gt (crop_tuple crop) [0; 0; 0; 0] in
  width (Rescale.restore_crop upscale self)
    = width upscale + (if applied then crop_left crop + crop_right crop else 0)
  /\ height (Rescale.restore_crop upscale self)
    = height upscale + (if applied then crop_top crop + crop_bottom crop else 0)
  /\ frame_prop (Rescale.restore_crop upscale self) "RescaleUpscaleFrom"
    = frame_prop upscale "RescaleUpscaleFrom".
Proof.
  cbv zeta. unfold Rescale.restore_crop.
  destruct (tuple_gt (crop_tuple (Rescale._crop self)) [0; 0; 0; 0]); cbn [width height];
    repeat split; try lia.
Qed.

(** What [std_Crop] answers. *)
Lemma std_Crop_cases (clip : VideoNode) (l r t b : Z) :
  match std_Crop clip l r t b with
  | Ok cropped =>
      cropped = Crop clip l r t b
      /\ 0 <= l /\ 0 <= r /\ 0 <= t /\ 0 <= b
      /\ l + r < width clip /\ t + b < height clip
  | Error e =>
      e = ExternalError "vapoursynth.Error"
      /\ (l < 0 \/ r < 0 \/ t < 0 \/ b < 0
          \/ width clip <= l + r \/ height clip <= t + b)
  end.
Proof.
  unfold std_Crop.
  destruct (Z.leb_spec 0 l), (Z.leb_spec 0 r), (Z.leb_spec 0 t), (Z.leb_spec 0 b),
    (Z.ltb_spec 0 (width clip - l - r)), (Z.ltb_spec 0 (height clip - t - b));
    cbn [andb]; repeat split; lia.
Qed.

(** What the constructor built, for any crop. *)
Lemma rescale_construction_shape
    (from_args : from_args_t) (clip : VideoNode) (target_height : Number)
    (kernel : Kernel) (upscaler downscaler : Scaler)
    (target_width : option Number) (base_height base_width : option Z)
    (crop : CropRel) (shift : Q * Q) (field_based : option FieldBased)
    (border_handling : Z) (constructed : Rescale.t) :
  Rescale.__init__ from_args clip target_height kernel upscaler downscaler
    target_width base_height base_width crop shift field_based border_handling
    = Ok constructed ->
  let applied := tuple_gt (crop_tuple crop) [0; 0; 0; 0] in
  let luma := RescaleBase.clipy (Rescale.base constructed) in
  Rescale._crop constructed = crop
  /\ Rescale._pre constructed = clip
  /\ Rescale._line_mask constructed = None
  /\ Rescale._credit_mask constructed = None
  /\ Rescale._ignore_mask constructed = None
  /\ RescaleBase.__dict__ (Rescale.base constructed) = ∅
  /\ luma = (if applied
             then Crop (get_y clip) (crop_left crop) (crop_right crop)
                    (crop_top crop) (crop_bottom crop)
             else get_y clip)
  /\ get_y clip :: RescaleBase.chroma (Rescale.base constructed) = split clip
  /\ from_args clip target_height target_width base_height base_width
       (fst shift) (snd shift) crop "hw"
     = Ok (RescaleBase.descale_args (Rescale.base constructed))
  /\ check_variable clip = Ok tt
  /\ (if applied
      then 0 <= crop_left crop /\ 0 <= crop_right crop
           /\ 0 <= crop_top crop /\ 0 <= crop_bottom crop
           /\ crop_left crop + crop_right crop < width clip
           /\ crop_top crop + crop_bottom crop < height clip
      else True)
  /\ RescaleBase.kernel (Rescale.base constructed) = kernel
  /\ RescaleBase.upscaler (Rescale.base constructed) = upscaler
  /\ RescaleBase.downscaler (Rescale.base constructed) = downscaler
  /\ RescaleBase.field_based (Rescale.base constructed) = field_based
  /\ BorderHandling_value (RescaleBase.border_handling (Rescale.base constructed))
     = border_handling.
Proof.
  intros Hinit. unfold Rescale.__init__ in Hinit.
  destruct (from_args _ _ _ _ _ _ _ _ _) as [a|]; [|discriminate].
  pose proof (base_init_cases clip kernel upscaler downscaler
                field_based border_handling) as B.
  destruct (RescaleBase.__init__ clip kernel upscaler downscaler field_based
              border_handling) as [b|]; [|discriminate].
  destruct B as (Hc & _ & Hv & Hy & Hs & Hk & Hu & Hdn & Hf).
  cbn [Rescale._crop Rescale.base RescaleBase.clipy] in Hinit.
  cbv zeta. rewrite Hy in Hs, Hinit.
  destruct (get_y_dims clip) as [Wy Hgy].
  destruct (tuple_gt (crop_tuple crop) [0; 0; 0; 0]).
  - pose proof (std_Crop_cases (get_y clip) (crop_left crop) (crop_right crop)
                  (crop_top crop) (crop_bottom crop)) as C.
    destruct (std_Crop _ _ _ _ _) as [cropped|]; [|discriminate].
    destruct C as (-> & C). rewrite Wy, Hgy in C.
    injection Hinit as <-. cbn.
    repeat split; try assumption; try congruence; try lia.
  - injection Hinit as <-. cbn.
    repeat split; try assumption; try congruence.
Qed.

Lemma generators_dims (self : Rescale.t) (clip : VideoNode) :
  let args := RescaleBase.descale_args (Rescale.base self) in
  let luma := RescaleBase.clipy (Rescale.base self) in
  (width (fst (Rescale._generate_descale self clip)) = ScalingArgs.width args
   /\ height (fst (Rescale._generate_descale self clip)) = ScalingArgs.height args)
  /\ (width (fst (call RescaleBase._generate_rescale self clip)) = width luma
      /\ height (fst (call RescaleBase._generate_rescale self clip)) = height luma)
  /\ (width (fst (call RescaleBase._generate_doubled self clip)) = width clip * 2
      /\ height (fst (call RescaleBase._generate_doubled self clip)) = height clip * 2).
Proof.
  cbv zeta. unfold Rescale._generate_descale.
  destruct (Rescale._ignore_mask self); cbn;
    destruct (truthy (RescaleBase.field_based (Rescale.base self))); repeat split.
Qed.

(** Reading [descale] leaves the planes and the target dimensions alone. *)
Lemma descale_frame (self : Rescale.t) :
  let self' := snd (RescaleBase.descale self) in
  RescaleBase.clipy (Rescale.base self') = RescaleBase.clipy (Rescale.base self)
  /\ ScalingArgs.width (RescaleBase.descale_args (Rescale.base self'))
     = ScalingArgs.width (RescaleBase.descale_args (Rescale.base self))
  /\ ScalingArgs.height (RescaleBase.descale_args (Rescale.base self'))
     = ScalingArgs.height (RescaleBase.descale_args (Rescale.base self)).
Proof.
  cbv zeta. unfold RescaleBase.descale, RescaleBase.cached_property.
  cbn [RescaleBase.attrs Rescale.self_t RescaleBase.with_attrs
       RescaleBase.self_generate_descale Rescale.methods_t].
  destruct (RescaleBase.__dict__ (Rescale.base self) !! "descale"); [repeat split|].
  unfold Rescale._generate_descale. destruct (Rescale._ignore_mask self); cbn;
    destruct (truthy (RescaleBase.field_based (Rescale.base self))); repeat split.
Qed.

(** X7.  For every object the constructor returns, whatever the crop and
    whatever masks are assigned afterwards: [descale] has the target
    dimensions of the scaling arguments (on the single-pass and on the
    two-pass path alike), [doubled] has twice those, [rescale] has the
    dimensions of the luma plane after the crop, and [upscale] has the
    dimensions of the clip given to the constructor and carries its chroma
    planes unchanged. *)
Theorem constructed_object_clips
    (from_args : from_args_t) (clip : VideoNode) (target_height : Number)
    (kernel : Kernel) (upscaler downscaler : Scaler)
    (target_width : option Number) (base_height base_width : option Z)
    (crop : CropRel) (shift : Q * Q) (field_based : option FieldBased)
    (border_handling : Z)
    (line credit ignore : option VideoNode) (constructed : Rescale.t) :
  Rescale.__init__ from_args clip target_height kernel upscaler downscaler
    target_width base_height base_width crop shift field_based border_handling
    = Ok constructed ->
  let self :=
    Rescale.set_ignore_mask ignore
      (Rescale.set_credit_mask credit (Rescale.set_line_mask line constructed)) in
  let args := RescaleBase.descale_args (Rescale.base constructed) in
  let applied := tuple_gt (crop_tuple crop) [0; 0; 0; 0] in
  let cropped_width :=
    width clip - (if applied then crop_left crop + crop_right crop else 0) in
  let cropped_height :=
    height clip - (if applied then crop_top crop + crop_bottom crop else 0) in
  (width (fst (RescaleBase.descale self)) = ScalingArgs.width args
   /\ height (fst (RescaleBase.descale self)) = ScalingArgs.height args)
  /\ (width (fst (RescaleBase.doubled self)) = ScalingArgs.width args * 2
      /\ height (fst (RescaleBase.doubled self)) = ScalingArgs.height args * 2)
  /\ (width (fst (RescaleBase.rescale self)) = cropped_width
      /\ height (fst (RescaleBase.rescale self)) = cropped_height)
  /\ (width (fst (RescaleBase.upscale self)) = width clip
      /\ height (fst (RescaleBase.upscale self)) = height clip)
  /\ exists luma, get_y clip :: tl (match fst (RescaleBase.upscale self) with
                                    | Join planes => planes
                                    | _ => []
                                    end) = split clip
                  /\ fst (RescaleBase.upscale self)
                     = Join (luma :: RescaleBase.chroma (Rescale.base constructed)).
Proof.
  intros Hinit self args applied cropped_width cropped_height.
  destruct (rescale_construction_shape _ _ _ _ _ _ _ _ _ _ _ _ _ _ Hinit)
    as (Hcrop & Hpre & _ & _ & _ & Hd & Hluma & Hsplit & _ & _).
  cbv zeta in Hluma. fold applied in Hluma.
  assert (Hs : RescaleBase.__dict__ (Rescale.base self) = ∅
               /\ Rescale._crop self = crop /\ Rescale._pre self = clip
               /\ Rescale.base self = Rescale.base constructed)
    by (subst self; destruct line, credit, ignore; repeat split; assumption).
  destruct Hs as (Hd' & Hcrop' & Hpre' & Hbase).
  destruct (get_y_dims clip) as [Wy Hy].
  assert (Wl : width (RescaleBase.clipy (Rescale.base self)) = cropped_width
               /\ height (RescaleBase.clipy (Rescale.base self)) = cropped_height).
  { rewrite Hbase, Hluma. subst cropped_width cropped_height.
    destruct applied; cbn [width height]; lia. }
  destruct Wl as [Wl Hl].
  assert (Md : forall k, RescaleBase.__dict__ (Rescale.base self) !! k = None)
    by (intros k; rewrite Hd'; apply lookup_empty).
  (* descale *)
  assert (Dd : width (fst (RescaleBase.descale self)) = ScalingArgs.width args
               /\ height (fst (RescaleBase.descale self)) = ScalingArgs.height args).
  { unfold RescaleBase.descale. rewrite (cached_property_miss_eq _ _ _ (Md "descale")).
    cbn [fst RescaleBase.self_generate_descale Rescale.methods_t RescaleBase.attrs
         Rescale.self_t].
    subst args. rewrite <- Hbase. apply generators_dims. }
  pose proof (descale_frame self) as Fd. cbv zeta in Fd. destruct Fd as (Yd & _ & _).
  split; [exact Dd|]. split; [|split; [|split]].
  - rewrite (doubled_miss self (Md "doubled")). cbn [fst].
    destruct (generators_dims (snd (RescaleBase.descale self))
                (fst (RescaleBase.descale self))) as (_ & _ & -> & ->).
    destruct Dd as [-> ->]. split; reflexivity.
  - rewrite (rescale_miss self (Md "rescale")). cbn [fst].
    destruct (generators_dims (snd (RescaleBase.descale self))
                (fst (RescaleBase.descale self))) as (_ & (-> & ->) & _).
    rewrite Yd. split; assumption.
  - destruct (upscale_first_read self (Md "upscale"))
      as (u & s & -> & Wu & Hu & _ & Cs & Ps).
    destruct (restore_crop_dims s u) as (Wr & Hr & _). cbv zeta in Wr, Hr.
    rewrite Cs, Hcrop' in Wr, Hr. fold applied in Wr, Hr.
    cbn [width height]. rewrite Wr, Hr, Wu, Hu, Wl, Hl.
    subst cropped_width cropped_height. destruct applied; split; lia.
  - destruct (upscale_first_read self (Md "upscale")) as (u & s & -> & _).
    eexists. rewrite Hbase. cbn [tl]. split; [exact Hsplit|reflexivity].
Qed.

Lemma constructed_object_clips_witness :
  let self := Example.cropped in
  width (fst (RescaleBase.descale self)) = 1280
  /\ width (fst (RescaleBase.doubled self)) = 2560
  /\ width (fst (RescaleBase.rescale self)) = 1910
  /\ height (fst (RescaleBase.rescale self)) = 1070
  /\ width (fst (RescaleBase.upscale self)) = 1920
  /\ height (fst (RescaleBase.upscale self)) = 1080.
Proof.
  pose proof (constructed_object_clips (Example.from_args Example.args_720)
                Example.clip (Int 720) Example.bicubic Example.artcnn Example.hermite
                None None None Example.crop_4_6_2_8 (0 # 1, 0 # 1)%Q None 0
                None None None Example.cropped eq_refl) as W.
  cbv zeta in W. destruct W as ((W1 & _) & (W2 & _) & (W3 & W4) & (W5 & W6) & _).
  repeat split; assumption.
Defined.

(** ** Field-based wrapping *)

(** X8.  [FieldBased.PROGRESSIVE] is falsy: an object given it generates the
    very clips of an object without a field-based policy.  With [BFF] or
    [TFF], [descale] (on either path) and [rescale] are what the object
    without a policy generates from the marked input, with the result marked
    progressive under the tag.  [doubled] and the upscale composition do not
    depend on the policy at all. *)
Theorem field_based_only_wraps_kernel_calls
    (self : Rescale.t) (clip : VideoNode) (policy : option FieldBased) :
  let plain := with_field_based None self in
  let marked := with_field_based policy self in
  let generators : list (Rescale.t -> VideoNode -> VideoNode * Rescale.t) :=
    [Rescale._generate_descale; call RescaleBase._generate_rescale] in
  Forall
    (fun generate =>
       match policy with
       | None | Some PROGRESSIVE =>
           fst (generate marked clip) = fst (generate plain clip)
       | Some order =>
           exists inner tag data,
             fst (generate plain (FieldBasedApply order clip)) = SetFrameProp inner tag data
             /\ fst (generate marked clip)
                = SetFrameProp (FieldBasedApply PROGRESSIVE inner) tag data
       end)
    generators
  /\ fst (call RescaleBase._generate_doubled marked clip)
     = fst (call RescaleBase._generate_doubled plain clip)
  /\ fst (Rescale._generate_upscale marked clip)
     = fst (Rescale._generate_upscale plain clip).
Proof.
  cbv zeta. split; [|split; [reflexivity|]].
  - apply List.Forall_cons; [|apply List.Forall_cons; [|apply List.Forall_nil]].
    + unfold Rescale._generate_descale. cbn [Rescale._ignore_mask with_field_based
                                              Rescale.set_base].
      destruct (Rescale._ignore_mask self); destruct policy as [[]|];
        try reflexivity; do 3 eexists; split; reflexivity.
    + destruct policy as [[]|]; try reflexivity; do 3 eexists; split; reflexivity.
  - rewrite !generate_upscale_stages. cbv zeta. rewrite !merge_line_mask_eq.
    cbn [Rescale._line_mask Rescale.base with_field_based Rescale.set_base
         RescaleBase.border_handling RescaleBase.clipy].
    destruct (truthy (Rescale._line_mask self)
              || truthy (RescaleBase.border_handling (Rescale.base self)))%bool;
      rewrite !merge_credit_mask_eq; cbn;
      destruct (Rescale._credit_mask self); reflexivity.
Qed.

Lemma field_based_only_wraps_kernel_calls_witness :
  fst (RescaleBase.descale (with_field_based (Some PROGRESSIVE) Example.fresh))
    = fst (RescaleBase.descale Example.fresh)
  /\ fst (RescaleBase.descale Scenario.interlaced)
     <> fst (RescaleBase.descale Example.fresh).
Proof.
  pose proof (field_based_only_wraps_kernel_calls Example.fresh
                (ShufflePlanes Example.clip 0) (Some PROGRESSIVE)) as W.
  cbv zeta in W. destruct W as [W _]. apply Forall_cons in W. destruct W as [W _].
  split; [exact W|]. vm_compute. discriminate.
Defined.

(** ** The line mask *)

Lemma region_border_iff (clip : VideoNode) (r : Z) (replace : Operand * Operand) (x y : Z) :
  in_region_border (_get_region_expr clip r r r r replace) x y = true
  <-> x < r \/ width clip - r <= x \/ y < r \/ height clip - r <= y.
Proof.
  unfold in_region_border, _get_region_expr.
  cbn [re_left re_xmax re_top re_ymax].
  rewrite !orb_true_iff, !Z.ltb_lt. lia.
Qed.

(** What [line_mask] returns, sample by sample. *)
Lemma line_mask_samples (engine : VideoNode -> Z -> Z -> Z) (self : Rescale.t) :
  let luma := RescaleBase.clipy (Rescale.base self) in
  let stored :=
    match Rescale._line_mask self with
    | Some m => m
    | None => BlankClip luma (Some (get_peak_value luma)) None
    end in
  let lm := fst (Rescale.line_mask self) in
  let r := kernel_radius (RescaleBase.kernel (Rescale.base self)) in
  get_peak_value lm = get_peak_value stored
  /\ width lm = width stored
  /\ height lm = height stored
  /\ forall x y,
       pixel engine lm x y =
         if (truthy (RescaleBase.border_handling (Rescale.base self))
             && in_region_border
                  (_get_region_expr stored r r r r (Const (get_peak_value stored), InputX))
                  x y)%bool
         then get_peak_value stored
         else pixel engine stored x y.
Proof.
  cbv zeta. unfold Rescale.line_mask. cbn [fst].
  destruct (truthy (RescaleBase.border_handling (Rescale.base self))).
  - repeat split. intros x y. cbn [pixel andb].
    now destruct (in_region_border _ x y).
  - repeat split.
Qed.

(** The second read of [line_mask]. *)
Lemma line_mask_second_read
    (engine : VideoNode -> Z -> Z -> Z) (self : Rescale.t) :
  let first := fst (Rescale.line_mask self) in
  let self1 := snd (Rescale.line_mask self) in
  let second := fst (Rescale.line_mask self1) in
  let self2 := snd (Rescale.line_mask self1) in
  let r := kernel_radius (RescaleBase.kernel (Rescale.base self)) in
  (forall x y, pixel engine second x y = pixel engine first x y)
  /\ width second = width first
  /\ height second = height first
  /\ get_peak_value second = get_peak_value first
  /\ Rescale._line_mask self2 = Some second
  /\ match RescaleBase.border_handling (Rescale.base self) with
     | MIRROR => second = first /\ self2 = self1
     | _ => second
            = NormExpr first
                (_get_region_expr first r r r r (Const (get_peak_value first), InputX))
     end.
Proof.
  cbv zeta.
  assert (S1 : Rescale._line_mask (snd (Rescale.line_mask self))
               = Some (fst (Rescale.line_mask self))
               /\ Rescale.base (snd (Rescale.line_mask self)) = Rescale.base self)
    by (split; reflexivity).
  destruct S1 as [S1 B1].
  pose proof (line_mask_samples engine self) as L1.
  pose proof (line_mask_samples engine (snd (Rescale.line_mask self))) as L2.
  cbv zeta in L1, L2. rewrite S1, B1 in L2.
  destruct L1 as (P1 & W1 & H1 & X1). destruct L2 as (P2 & W2 & H2 & X2).
  split; [|split; [exact W2|split; [exact H2|split; [exact P2|split; [reflexivity|]]]]].
  - intros x y. rewrite X2.
    destruct (truthy (RescaleBase.border_handling (Rescale.base self))) eqn:Eb;
      [|reflexivity].
    cbn [andb].
    destruct (in_region_border
                (_get_region_expr (fst (Rescale.line_mask self)) _ _ _ _ _) x y) eqn:Ein;
      [|reflexivity].
    rewrite X1. cbn [andb].
    apply region_border_iff in Ein. rewrite W1, H1 in Ein.
    match goal with
    | |- context [in_region_border (_get_region_expr ?c ?r ?r ?r ?r ?p) x y] =>
        apply (region_border_iff c r p) in Ein
    end.
    rewrite Ein. exact P1.
  - set (first := fst (Rescale.line_mask self)) in *.
    set (self1 := snd (Rescale.line_mask self)) in *.
    assert (E : Rescale.line_mask self1
                = (if truthy (RescaleBase.border_handling (Rescale.base self))
                   then NormExpr first
                          (_get_region_expr first
                             (kernel_radius (RescaleBase.kernel (Rescale.base self)))
                             (kernel_radius (RescaleBase.kernel (Rescale.base self)))
                             (kernel_radius (RescaleBase.kernel (Rescale.base self)))
                             (kernel_radius (RescaleBase.kernel (Rescale.base self)))
                             (Const (get_peak_value first), InputX))
                   else first,
                   Rescale.set__line_mask
                     (Some (if truthy (RescaleBase.border_handling (Rescale.base self))
                            then NormExpr first
                                   (_get_region_expr first
                                      (kernel_radius (RescaleBase.kernel (Rescale.base self)))
                                      (kernel_radius (RescaleBase.kernel (Rescale.base self)))
                                      (kernel_radius (RescaleBase.kernel (Rescale.base self)))
                                      (kernel_radius (RescaleBase.kernel (Rescale.base self)))
                                      (Const (get_peak_value first), InputX))
                            else first))
                     self1)).
    { unfold Rescale.line_mask at 1. rewrite S1, B1. reflexivity. }
    rewrite E. cbn [fst snd].
    destruct (RescaleBase.border_handling (Rescale.base self)); cbn; try reflexivity.
    split; reflexivity.
Qed.

(** X9.  Reading [line_mask] again returns a mask with the same samples,
    dimensions and peak value as the first read.  Under mirror border
    handling it is the same clip and the object does not change; otherwise
    every read wraps the stored mask in one more region expression, and
    stores that. *)
Theorem line_mask_reads_are_stable
    (engine : VideoNode -> Z -> Z -> Z) (self : Rescale.t) :
  let first := fst (Rescale.line_mask self) in
  let self1 := snd (Rescale.line_mask self) in
  let second := fst (Rescale.line_mask self1) in
  let self2 := snd (Rescale.line_mask self1) in
  let r := kernel_radius (RescaleBase.kernel (Rescale.base self)) in
  (forall x y, pixel engine second x y = pixel engine first x y)
  /\ width second = width first
  /\ height second = height first
  /\ get_peak_value second = get_peak_value first
  /\ Rescale._line_mask self2 = Some second
  /\ match RescaleBase.border_handling (Rescale.base self) with
     | MIRROR => second = first /\ self2 = self1
     | _ => second
            = NormExpr first
                (_get_region_expr first r r r r (Const (get_peak_value first), InputX))
     end.
Proof. apply line_mask_second_read. Qed.

(** X10.  With no line mask assigned, the line-mask step never changes the
    picture: under mirror border handling there is no merge, under the other
    modes the merge is under a mask at peak everywhere, and after a read of
    [line_mask] has stored the default the merge is under that same mask.  In
    each case every sample of the result is the sample of the upscale. *)
Theorem default_line_mask_keeps_upscale
    (engine : VideoNode -> Z -> Z -> Z) (self : Rescale.t) (upscale : VideoNode) :
  Rescale._line_mask self = None ->
  0 < bits (RescaleBase.clipy (Rescale.base self)) ->
  forall x y,
    pixel engine (fst (Rescale.merge_line_mask upscale self)) x y
      = pixel engine upscale x y
    /\ pixel engine
         (fst (Rescale.merge_line_mask upscale (snd (Rescale.line_mask self)))) x y
       = pixel engine upscale x y.
Proof.
  intros Hnone Hbits x y.
  pose proof (peak_positive _ Hbits) as Hpeak.
  assert (G : forall s : Rescale.t,
             Rescale.base s = Rescale.base self ->
             (forall x y, pixel engine (fst (Rescale.line_mask s)) x y
                          = get_peak_value (RescaleBase.clipy (Rescale.base self))) ->
             get_peak_value (fst (Rescale.line_mask s))
               = get_peak_value (RescaleBase.clipy (Rescale.base self)) ->
             pixel engine (fst (Rescale.merge_line_mask upscale s)) x y
             = pixel engine upscale x y).
  { intros s Hb Hp Hq. rewrite merge_line_mask_eq.
    destruct (truthy (Rescale._line_mask s)
              || truthy (RescaleBase.border_handling (Rescale.base s)))%bool;
      [|reflexivity].
    cbn [fst pixel]. rewrite Hp, Hq. now apply merge_sample_opaque. }
  pose proof (line_mask_samples engine self) as L. cbv zeta in L.
  rewrite Hnone in L. destruct L as (P & _ & _ & X).
  assert (X' : forall x y, pixel engine (fst (Rescale.line_mask self)) x y
                           = get_peak_value (RescaleBase.clipy (Rescale.base self))).
  { intros x' y'. rewrite X. now destruct (_ && _)%bool. }
  split.
  - apply G; [reflexivity|exact X'|exact P].
  - pose proof (line_mask_second_read engine self) as S. cbv zeta in S.
    destruct S as (S1 & _ & _ & S2 & _).
    apply G; [reflexivity| |].
    + intros x' y'. now rewrite S1.
    + now rewrite S2.
Qed.

Lemma default_line_mask_keeps_upscale_witness :
  let upscale :=
    fst (call RescaleBase._generate_upscale Scenario.zero_padded
           (fst (RescaleBase.doubled Scenario.zero_padded))) in
  truthy (RescaleBase.border_handling (Rescale.base Scenario.zero_padded)) = true
  /\ pixel Example.engine (fst (Rescale.merge_line_mask upscale Scenario.zero_padded)) 1 700
     = 235.
Proof.
  intros upscale. split; [reflexivity|].
  destruct (default_line_mask_keeps_upscale Example.engine Scenario.zero_padded upscale
              eq_refl eq_refl 1 700) as [W _].
  rewrite W. reflexivity.
Defined.

(** X11.  With border handling other than mirror, the frame of
    [kernel_radius] samples around the picture always takes the upscaled
    result, whatever line mask is assigned; inside that frame the assigned
    mask decides, as under mirror handling. *)
Theorem non_mirror_frame_takes_upscale
    (engine : VideoNode -> Z -> Z -> Z) (self : Rescale.t) (mask upscale : VideoNode)
    (x y : Z) :
  Rescale._line_mask self = Some mask ->
  RescaleBase.border_handling (Rescale.base self) <> MIRROR ->
  0 < get_peak_value mask ->
  let r := kernel_radius (RescaleBase.kernel (Rescale.base self)) in
  let luma := RescaleBase.clipy (Rescale.base self) in
  let merged := fst (Rescale.merge_line_mask upscale self) in
  let on_frame := x < r \/ width mask - r <= x \/ y < r \/ height mask - r <= y in
  (on_frame -> pixel engine merged x y = pixel engine upscale x y)
  /\ (~ on_frame ->
      pixel engine merged x y
      = merge_sample (get_peak_value mask) (pixel engine luma x y)
          (pixel engine upscale x y) (pixel engine mask x y)).
Proof.
  intros Hmask Hbh Hpeak r luma merged on_frame.
  pose proof (line_mask_samples engine self) as L. cbv zeta in L.
  rewrite Hmask in L. destruct L as (P & _ & _ & X).
  assert (Tb : truthy (RescaleBase.border_handling (Rescale.base self)) = true)
    by (destruct (RescaleBase.border_handling (Rescale.base self)); [congruence| |];
        reflexivity).
  rewrite Tb in X. cbn [andb] in X.
  subst merged. rewrite merge_line_mask_eq, Tb, orb_true_r. cbn [fst pixel].
  rewrite P, X. fold r.
  split; intros Hf.
  - apply (region_border_iff mask r (Const (get_peak_value mask), InputX)) in Hf.
    rewrite Hf. now apply merge_sample_opaque.
  - destruct (in_region_border _ x y) eqn:E; [|reflexivity].
    apply region_border_iff in E. contradiction.
Qed.

Lemma non_mirror_frame_takes_upscale_witness :
  let self := Rescale.set_line_mask (Some Example.user_mask) Scenario.zero_padded in
  let upscale :=
    fst (call RescaleBase._generate_upscale self (fst (RescaleBase.doubled self))) in
  pixel Example.engine (fst (Rescale.merge_line_mask upscale self)) 1 700 = 235.
Proof.
  intros self upscale.
  destruct (non_mirror_frame_takes_upscale Example.engine self
              (Depth Example.user_mask 8) upscale 1 700 eq_refl) as [W _].
  - discriminate.
  - reflexivity.
  - rewrite W; [reflexivity|]. left. reflexivity.
Defined.

(** ** The other masks *)

(** X12.  Reading [ignore_mask] on an object that has none stores a blank
    8-bit gray clip as the ignore mask and returns it.  From then on
    [descale] is generated on the two-pass path, under the tag
    [RescaleMaskFrom], where before the read it was a single descale under
    [RescaleDescaleFrom]. *)
Theorem ignore_mask_read_switches_descale (self : Rescale.t) (clip : VideoNode) :
  Rescale._ignore_mask self = None ->
  let luma := RescaleBase.clipy (Rescale.base self) in
  let im := fst (Rescale.ignore_mask self) in
  let self' := snd (Rescale.ignore_mask self) in
  im = Depth (BlankClip luma None (Some GRAY8)) 8
  /\ format im = Some GRAY8
  /\ self' = Rescale.set__ignore_mask (Some im) self
  /\ (exists inner,
        fst (Rescale._generate_descale self clip)
        = SetFrameProp inner "RescaleDescaleFrom" (tag_data self))
  /\ (exists first_pass kw bh resized inner,
        fst (Rescale._generate_descale self' clip)
        = SetFrameProp inner "RescaleMaskFrom" (tag_data self)
        /\ (inner = KernelDescale (RescaleBase.kernel (Rescale.base self)) first_pass
                      (Some (ScalingArgs.width (RescaleBase.descale_args (Rescale.base self))))
                      None kw bh (Some resized)
            \/ inner = FieldBasedApply PROGRESSIVE
                         (KernelDescale (RescaleBase.kernel (Rescale.base self)) first_pass
                            (Some (ScalingArgs.width
                                     (RescaleBase.descale_args (Rescale.base self))))
                            None kw bh (Some resized)))
        /\ resized = PointScale im None
                       (Some (ScalingArgs.height
                                (RescaleBase.descale_args (Rescale.base self))))).
Proof.
  intros Hnone luma im self'. subst im self'. unfold Rescale.ignore_mask.
  rewrite Hnone. cbn [fst snd Rescale.set_ignore_mask Rescale._ignore_mask
                      Rescale.set__ignore_mask].
  split; [reflexivity|]. split; [reflexivity|]. split; [reflexivity|]. split.
  - unfold Rescale._generate_descale. rewrite Hnone. cbn. unfold tag_data. cbn.
    destruct (truthy (RescaleBase.field_based (Rescale.base self))); eexists; reflexivity.
  - unfold Rescale._generate_descale. cbn. unfold tag_data. cbn.
    destruct (truthy (RescaleBase.field_based (Rescale.base self)));
      do 5 eexists; (split; [reflexivity|]); split; try reflexivity;
      [right|left]; reflexivity.
Qed.

Lemma ignore_mask_read_switches_descale_witness :
  let self' := snd (Rescale.ignore_mask Example.fresh) in
  frame_prop (fst (RescaleBase.descale self')) "RescaleMaskFrom" = Some "Bicubic - 1280 x 720"
  /\ frame_prop (fst (RescaleBase.descale Example.fresh)) "RescaleMaskFrom" = None.
Proof.
  destruct (ignore_mask_read_switches_descale Example.fresh
              (ShufflePlanes Example.clip 0) eq_refl)
    as (_ & _ & _ & _ & (fp & kw & bh & rs & inner & W & _)).
  split.
  - change (fst (RescaleBase.descale (snd (Rescale.ignore_mask Example.fresh))))
      with (fst (Rescale._generate_descale (snd (Rescale.ignore_mask Example.fresh))
                   (ShufflePlanes Example.clip 0))).
    rewrite W. reflexivity.
  - reflexivity.
Defined.

(** X13.  Reading [credit_mask] on an object that has none stores a blank
    clip, converted to the luma's depth, as the credit mask and returns it.
    The credit step of the upscale composition, which did nothing before
    the read, merges with the original luma under that mask afterwards. *)
Theorem credit_mask_read_enables_merge (self : Rescale.t) (upscale : VideoNode) :
  Rescale._credit_mask self = None ->
  let luma := RescaleBase.clipy (Rescale.base self) in
  let cm := fst (Rescale.credit_mask self) in
  let self' := snd (Rescale.credit_mask self) in
  cm = Depth (BlankClip luma None None) (bits luma)
  /\ self' = Rescale.set__credit_mask (Some cm) self
  /\ Rescale.merge_credit_mask upscale self = (upscale, self)
  /\ Rescale.merge_credit_mask upscale self' = (MaskedMerge upscale luma cm, self')
  /\ Rescale.credit_mask self' = (cm, self').
Proof.
  intros Hnone luma cm self'. subst cm self'.
  rewrite !merge_credit_mask_eq. unfold Rescale.credit_mask. rewrite Hnone.
  cbn. rewrite ?Hnone. repeat split.
Qed.

Lemma credit_mask_read_enables_merge_witness :
  fst (Rescale.merge_credit_mask Example.user_mask (snd (Rescale.credit_mask Example.fresh)))
  = MaskedMerge Example.user_mask (ShufflePlanes Example.clip 0)
      (Depth (BlankClip (ShufflePlanes Example.clip 0) None None) 8).
Proof.
  destruct (credit_mask_read_enables_merge Example.fresh Example.user_mask eq_refl)
    as (_ & _ & _ & W & _).
  rewrite W. reflexivity.
Defined.

(** X14.  Mask accessors round-trip.  A mask that is assigned is read back
    converted to the luma's depth (line and credit masks) or to 8 bits
    (ignore mask), and the read changes nothing; for the line mask the read
    returns the stored clip as it is only under mirror border handling.
    Assigning [None] clears the attribute, and a second assignment replaces
    the first.  The statement [del] does not clear a mask: it raises
    [RecursionError] and the mask that was assigned stays. *)
Theorem mask_accessors_round_trip
    (self : Rescale.t) (mask other : VideoNode) (frames : nat) :
  let depth := bits (RescaleBase.clipy (Rescale.base self)) in
  (Rescale.credit_mask (Rescale.set_credit_mask (Some mask) self)
     = (Depth mask depth, Rescale.set_credit_mask (Some mask) self)
   /\ Rescale.ignore_mask (Rescale.set_ignore_mask (Some mask) self)
      = (Depth mask 8, Rescale.set_ignore_mask (Some mask) self)
   /\ (RescaleBase.border_handling (Rescale.base self) = MIRROR ->
       Rescale.line_mask (Rescale.set_line_mask (Some mask) self)
       = (Depth mask depth, Rescale.set_line_mask (Some mask) self)))
  /\ (Rescale._line_mask (Rescale.set_line_mask None (Rescale.set_line_mask (Some mask) self))
        = None
      /\ Rescale._credit_mask
           (Rescale.set_credit_mask None (Rescale.set_credit_mask (Some mask) self)) = None
      /\ Rescale._ignore_mask
           (Rescale.set_ignore_mask None (Rescale.set_ignore_mask (Some mask) self)) = None)
  /\ (Rescale.set_line_mask (Some other) (Rescale.set_line_mask (Some mask) self)
        = Rescale.set_line_mask (Some other) self
      /\ Rescale.set_credit_mask (Some other) (Rescale.set_credit_mask (Some mask) self)
         = Rescale.set_credit_mask (Some other) self
      /\ Rescale.set_ignore_mask (Some other) (Rescale.set_ignore_mask (Some mask) self)
         = Rescale.set_ignore_mask (Some other) self)
  /\ (Rescale.del_line_mask frames (Rescale.set_line_mask (Some mask) self)
        = (Error RecursionError, Rescale.set_line_mask (Some mask) self)
      /\ Rescale.del_credit_mask frames (Rescale.set_credit_mask (Some mask) self)
         = (Error RecursionError, Rescale.set_credit_mask (Some mask) self)
      /\ Rescale.del_ignore_mask frames (Rescale.set_ignore_mask (Some mask) self)
         = (Error RecursionError, Rescale.set_ignore_mask (Some mask) self))
  /\ (Rescale._line_mask
        (snd (Rescale.del_line_mask frames (Rescale.set_line_mask (Some mask) self)))
        = Some (Depth mask depth)
      /\ Rescale._credit_mask
           (snd (Rescale.del_credit_mask frames (Rescale.set_credit_mask (Some mask) self)))
         = Some (Depth mask depth)
      /\ Rescale._ignore_mask
           (snd (Rescale.del_ignore_mask frames (Rescale.set_ignore_mask (Some mask) self)))
         = Some (Depth mask 8)).
Proof.
  cbv zeta. unfold Rescale.del_line_mask, Rescale.del_credit_mask, Rescale.del_ignore_mask.
  rewrite !delattr_recursion.
  repeat split.
  intros Hbh. unfold Rescale.line_mask. cbn. rewrite Hbh. reflexivity.
Qed.

Lemma mask_accessors_round_trip_witness :
  Rescale.line_mask Example.with_line_mask
  = (Depth Example.user_mask 8, Example.with_line_mask).
Proof.
  destruct (mask_accessors_round_trip Example.fresh Example.user_mask Example.user_mask
              Example.recursion_limit)
    as ((_ & _ & W) & _).
  exact (W eq_refl).
Defined.

(** ** Tags of the computed clips *)

Lemma descale_keeps_tag_data (self : Rescale.t) :
  tag_data (snd (RescaleBase.descale self)) = tag_data self.
Proof.
  unfold tag_data, RescaleBase.descale, RescaleBase.cached_property.
  cbn [RescaleBase.attrs Rescale.self_t RescaleBase.with_attrs
       RescaleBase.self_generate_descale Rescale.methods_t].
  destruct (RescaleBase.__dict__ (Rescale.base self) !! "descale"); [reflexivity|].
  unfold Rescale._generate_descale. destruct (Rescale._ignore_mask self); cbn;
    destruct (truthy (RescaleBase.field_based (Rescale.base self))); reflexivity.
Qed.

(** X15.  A derived clip that a read has to compute carries the tag of its
    operation with the kernel name and the source dimensions of the object:
    [RescaleRescaleFrom], [RescaleDoubledFrom] and, through every merge and
    the join with the chroma planes, [RescaleUpscaleFrom]; for [descale] the
    tag is [RescaleDescaleFrom] without an ignore mask and [RescaleMaskFrom]
    with one. *)
Theorem computed_clips_are_tagged (self : Rescale.t) :
  let entries := RescaleBase.__dict__ (Rescale.base self) in
  (entries !! "descale" = None ->
   frame_prop (fst (RescaleBase.descale self))
     (if truthy (Rescale._ignore_mask self) then "RescaleMaskFrom" else "RescaleDescaleFrom")
   = Some (tag_data self))
  /\ (entries !! "rescale" = None ->
      frame_prop (fst (RescaleBase.rescale self)) "RescaleRescaleFrom" = Some (tag_data self))
  /\ (entries !! "doubled" = None ->
      frame_prop (fst (RescaleBase.doubled self)) "RescaleDoubledFrom" = Some (tag_data self))
  /\ (entries !! "upscale" = None ->
      frame_prop (fst (RescaleBase.upscale self)) "RescaleUpscaleFrom" = Some (tag_data self)).
Proof.
  cbv zeta. split; [|split; [|split]]; intros Hmiss.
  - unfold RescaleBase.descale. rewrite (cached_property_miss_eq _ _ _ Hmiss).
    cbn [fst RescaleBase.self_generate_descale Rescale.methods_t RescaleBase.attrs
         Rescale.self_t].
    unfold Rescale._generate_descale, tag_data.
    destruct (Rescale._ignore_mask self); cbn;
      destruct (truthy (RescaleBase.field_based (Rescale.base self))); reflexivity.
  - rewrite (rescale_miss self Hmiss). cbn [fst].
    rewrite <- (descale_keeps_tag_data self).
    apply (base_generators_tagged (snd (RescaleBase.descale self))).
  - rewrite (doubled_miss self Hmiss). cbn [fst].
    rewrite <- (descale_keeps_tag_data self).
    apply (base_generators_tagged (snd (RescaleBase.descale self))).
  - destruct (upscale_first_read self Hmiss) as (u & s & -> & _ & _ & Tg & _).
    cbn [frame_prop]. now rewrite (proj2 (proj2 (restore_crop_dims s u))).
Qed.

Lemma computed_clips_are_tagged_witness :
  frame_prop (fst (RescaleBase.upscale Example.cropped)) "RescaleUpscaleFrom"
  = Some "Bicubic - 1280 x 720".
Proof.
  destruct (computed_clips_are_tagged Example.cropped) as (_ & _ & _ & W).
  rewrite (W eq_refl). reflexivity.
Defined.

(** ** Inside the restored borders *)

(** X16.  When the crop is applied and the luma plane has the cropped
    dimensions, the upscale composition renders, at every position inside
    the borders, the sample that the composition before the crop step has at
    the position shifted by the left and top amounts. *)
Theorem crop_interior_keeps_upscale
    (engine : VideoNode -> Z -> Z -> Z) (self : Rescale.t) (clip : VideoNode) (x y : Z) :
  let crop := Rescale._crop self in
  let pre_y := get_y (Rescale._pre self) in
  let luma := RescaleBase.clipy (Rescale.base self) in
  let base_upscale := fst (call RescaleBase._generate_upscale self clip) in
  let after_line := Rescale.merge_line_mask base_upscale self in
  let composed := fst (Rescale.merge_credit_mask (fst after_line) (snd after_line)) in
  tuple_gt (crop_tuple crop) [0; 0; 0; 0] = true ->
  0 < bits (Rescale._pre self) ->
  width luma = width pre_y - crop_left crop - crop_right crop ->
  height luma = height pre_y - crop_top crop - crop_bottom crop ->
  crop_left crop <= x < width pre_y - crop_right crop ->
  crop_top crop <= y < height pre_y - crop_bottom crop ->
  pixel engine (fst (Rescale._generate_upscale self clip)) x y
  = pixel engine composed (x - crop_left crop) (y - crop_top crop).
Proof.
  intros crop pre_y luma base_upscale after_line composed Hcrop Hbits Wl Hl Hx Hy.
  rewrite generate_upscale_stages. cbv zeta. fold base_upscale.
  pose proof (merge_line_mask_frame self base_upscale) as F2. cbv zeta in F2.
  subst composed after_line.
  destruct (Rescale.merge_line_mask base_upscale self) as [u1 s1]. cbn [fst snd] in *.
  destruct F2 as (W2 & H2 & C2 & P2 & _).
  specialize (W2 eq_refl). specialize (H2 eq_refl).
  pose proof (merge_credit_mask_frame s1 u1) as F3. cbv zeta in F3.
  destruct (Rescale.merge_credit_mask u1 s1) as [u2 s2]. cbn [fst snd] in *.
  destruct F3 as (W3 & H3 & ->).
  destruct (restore_crop_spec engine s1 u2) as (mask & _ & _ & Po).
  { now rewrite C2. }
  { rewrite P2. apply peak_positive. now rewrite get_y_bits. }
  rewrite Po, C2, P2. fold crop pre_y.
  assert (E : ((x <? crop_left crop) || (width pre_y - crop_right crop <=? x)
               || ((y <? crop_top crop) || (height pre_y - crop_bottom crop <=? y)))%bool
              = false).
  { rewrite !orb_false_iff, !Z.ltb_ge, !Z.leb_gt. lia. }
  rewrite E. cbn [pixel].
  assert (I : ((crop_left crop <=? x) && (x <? crop_left crop + width u2)
               && (crop_top crop <=? y) && (y <? crop_top crop + height u2))%bool = true).
  { rewrite !andb_true_iff, !Z.leb_le, !Z.ltb_lt, W3, H3, W2, H2.
    fold luma. lia. }
  now rewrite I.
Qed.

Lemma crop_interior_keeps_upscale_witness :
  let self := Example.cropped in
  let doubled := fst (RescaleBase.doubled self) in
  pixel Example.engine (fst (Rescale._generate_upscale self doubled)) 700 500 = 235.
Proof.
  intros self doubled.
  rewrite (crop_interior_keeps_upscale Example.engine self doubled 700 500);
    [reflexivity|reflexivity|reflexivity|reflexivity|reflexivity| |];
    cbn; lia.
Defined.

(** ** A subclass object without masks *)

(** X17.  An object of [Rescale] with no mask assigned, mirror border
    handling and a crop that is not applied behaves as an object of
    [RescaleBase] with the same attributes: each of the four properties
    returns the clip the base class computes, leaves the same attributes and
    cache behind, and leaves the masks unassigned. *)
Theorem plain_rescale_is_base (self : Rescale.t) :
  Rescale._line_mask self = None ->
  Rescale._credit_mask self = None ->
  Rescale._ignore_mask self = None ->
  RescaleBase.border_handling (Rescale.base self) = MIRROR ->
  tuple_gt (crop_tuple (Rescale._crop self)) [0; 0; 0; 0] = false ->
  Forall
    (fun '(derived, inherited) =>
       fst ((derived : Rescale.t -> VideoNode * Rescale.t) self)
         = fst ((inherited : RescaleBase.t -> VideoNode * RescaleBase.t) (Rescale.base self))
       /\ snd (derived self) = Rescale.set_base (snd (inherited (Rescale.base self))) self)
    [(RescaleBase.descale, RescaleBase.descale);
     (RescaleBase.rescale, RescaleBase.rescale);
     (RescaleBase.doubled, RescaleBase.doubled);
     (RescaleBase.upscale, RescaleBase.upscale)].
Proof.
  intros Hl Hc Hi Hb Hcrop.
  assert (Gd : forall s clip,
             Rescale._ignore_mask s = None ->
             Rescale._generate_descale s clip
             = (fst (call RescaleBase._generate_descale (Rescale.base s) clip), s)).
  { intros s clip Hs. unfold Rescale._generate_descale. rewrite Hs. cbn.
    destruct (truthy (RescaleBase.field_based (Rescale.base s))); reflexivity. }
  assert (Gu : forall s clip,
             Rescale._line_mask s = None -> Rescale._credit_mask s = None ->
             RescaleBase.border_handling (Rescale.base s) = MIRROR ->
             tuple_gt (crop_tuple (Rescale._crop s)) [0; 0; 0; 0] = false ->
             Rescale._generate_upscale s clip
             = (fst (call RescaleBase._generate_upscale (Rescale.base s) clip), s)).
  { intros s clip H1 H2 H3 H4. rewrite generate_upscale_stages. cbv zeta.
    rewrite merge_line_mask_eq, H1, H3. cbn [truthy truthy_option_clip orb
      truthy_border_handling BorderHandling_value Z.eqb negb].
    rewrite merge_credit_mask_eq, H2. unfold Rescale.restore_crop. rewrite H4.
    reflexivity. }
  destruct self as [b lm cm im crop pre].
  cbn [Rescale._line_mask Rescale._credit_mask Rescale._ignore_mask Rescale.base
       Rescale._crop] in Hl, Hc, Hi, Hb, Hcrop.
  subst lm cm im.
  destruct b as [luma chroma kernel upscaler downscaler policy handling args entries].
  cbn [RescaleBase.border_handling] in Hb. subst handling.
  repeat (apply List.Forall_cons); try apply List.Forall_nil;
    unfold RescaleBase.upscale, RescaleBase.doubled, RescaleBase.rescale,
      RescaleBase.descale, RescaleBase.cached_property;
    cbn [RescaleBase.attrs RescaleBase.with_attrs Rescale.self_t RescaleBase.self_t
         RescaleBase.self_generate_descale RescaleBase.self_generate_rescale
         RescaleBase.self_generate_doubled RescaleBase.self_generate_upscale
         Rescale.methods_t RescaleBase.methods_t Rescale.base RescaleBase.__dict__].
  - destruct (entries !! "descale"); [split; reflexivity|].
    rewrite Gd by reflexivity. destruct policy as [[]|]; split; reflexivity.
  - destruct (entries !! "rescale"); [split; reflexivity|].
    destruct (entries !! "descale").
    + destruct policy as [[]|]; split; reflexivity.
    + rewrite Gd by reflexivity. destruct policy as [[]|]; split; reflexivity.
  - destruct (entries !! "doubled"); [split; reflexivity|].
    destruct (entries !! "descale").
    + split; reflexivity.
    + rewrite Gd by reflexivity. destruct policy as [[]|]; split; reflexivity.
  - destruct (entries !! "upscale"); [split; reflexivity|].
    destruct (entries !! "doubled").
    + rewrite Gu by (try reflexivity; assumption). split; reflexivity.
    + destruct (entries !! "descale").
      * cbn [fst snd call RescaleBase._generate_doubled RescaleBase._add_props].
        rewrite Gu by (try reflexivity; assumption). split; reflexivity.
      * rewrite Gd by reflexivity.
        destruct policy as [[]|];
          cbn [fst snd call RescaleBase._generate_doubled RescaleBase._add_props];
          rewrite Gu by (try reflexivity; assumption); split; reflexivity.
Qed.

Lemma plain_rescale_is_base_witness :
  fst (RescaleBase.upscale Example.fresh) = fst (RescaleBase.upscale Example.fresh_base).
Proof.
  pose proof (plain_rescale_is_base Example.fresh eq_refl eq_refl eq_refl eq_refl eq_refl)
    as W.
  rewrite !Forall_cons in W. destruct W as (_ & _ & _ & (W & _) & _).
  exact W.
Defined.

(** ** The default mask builders *)

Lemma rescale_keeps_luma (self : Rescale.t) :
  RescaleBase.clipy (Rescale.base (snd (RescaleBase.rescale self)))
  = RescaleBase.clipy (Rescale.base self).
Proof.
  destruct (RescaleBase.__dict__ (Rescale.base self) !! "rescale") eqn:E.
  - unfold RescaleBase.rescale. now rewrite (cached_property_hit _ _ _ _ E).
  - rewrite (rescale_miss self E). cbn. apply descale_frame.
Qed.

Section DefaultMaskProperties.
Variable edgemask : VideoNode -> VideoNode.
Variable Maximum : VideoNode -> VideoNode.
Variable Minimum : VideoNode -> VideoNode.
Variable scale_to_format : Scaler -> VideoNode -> Z -> Z -> option VideoFormat -> VideoNode.
Variable based_diff_mask : VideoNode -> VideoNode -> Q -> Z -> VideoNode.

(** X18.  [default_credit_mask] stores, as credit mask, the difference mask
    between the luma of [src] (the object's luma plane when [src] is not
    given) and the luma of [rescale], converted to the luma's depth, and
    returns it.  When [rescale] is given the cache is not touched; when it is
    not, the [rescale] property is read, so that it is cached afterwards.
    The credit step of a later upscale composition merges under the stored
    mask. *)
Theorem default_credit_mask_effects
    (self : Rescale.t) (rescale src : option VideoNode) (thr : Q) (expand : Z) :
  let luma := RescaleBase.clipy (Rescale.base self) in
  let result := default_credit_mask based_diff_mask self rescale src thr expand in
  let source := match src with Some c => c | None => luma end in
  let against :=
    match rescale with Some c => c | None => fst (RescaleBase.rescale self) end in
  let before :=
    match rescale with Some _ => self | None => snd (RescaleBase.rescale self) end in
  let mask := Depth (based_diff_mask (get_y source) (get_y against) thr expand) (bits luma) in
  result = (mask, Rescale.set__credit_mask (Some mask) before)
  /\ match rescale with
     | Some _ =>
         RescaleBase.__dict__ (Rescale.base (snd result))
         = RescaleBase.__dict__ (Rescale.base self)
     | None =>
         RescaleBase.__dict__ (Rescale.base (snd result)) !! "rescale" = Some against
     end
  /\ forall upscale,
       Rescale.merge_credit_mask upscale (snd result)
       = (MaskedMerge upscale luma mask, snd result).
Proof.
  cbv zeta.
  assert (E : default_credit_mask based_diff_mask self rescale src thr expand
              = (Depth (based_diff_mask
                          (get_y match src with
                                 | Some c => c
                                 | None => RescaleBase.clipy (Rescale.base self)
                                 end)
                          (get_y match rescale with
                                 | Some c => c
                                 | None => fst (RescaleBase.rescale self)
                                 end) thr expand)
                   (bits (RescaleBase.clipy (Rescale.base self))),
                 Rescale.set__credit_mask
                   (Some (Depth (based_diff_mask
                                   (get_y match src with
                                          | Some c => c
                                          | None => RescaleBase.clipy (Rescale.base self)
                                          end)
                                   (get_y match rescale with
                                          | Some c => c
                                          | None => fst (RescaleBase.rescale self)
                                          end) thr expand)
                            (bits (RescaleBase.clipy (Rescale.base self)))))
                   match rescale with
                   | Some _ => self
                   | None => snd (RescaleBase.rescale self)
                   end)).
  { unfold default_credit_mask. destruct rescale as [r|].
    - reflexivity.
    - pose proof (rescale_keeps_luma self) as K.
      destruct (RescaleBase.rescale self) as [r s1]. cbn [fst snd] in *.
      unfold Rescale.credit_mask, Rescale.set_credit_mask. cbn. now rewrite K. }
  rewrite E. cbn [fst snd]. split; [reflexivity|]. split.
  - destruct rescale as [r|]; [reflexivity|].
    cbn [Rescale.base Rescale.set__credit_mask].
    destruct (RescaleBase.__dict__ (Rescale.base self) !! "rescale") eqn:Er.
    + unfold RescaleBase.rescale. now rewrite (cached_property_hit _ _ _ _ Er).
    + rewrite rescale_entries, Er. apply lookup_insert_eq.
  - intros upscale. rewrite merge_credit_mask_eq. cbn.
    destruct rescale as [r|]; [reflexivity|]. now rewrite rescale_keeps_luma.
Qed.

(** X19.  [default_line_mask] runs the edge detector on [clip], or on the
    object's luma plane when [clip] is not given, asks for the mask at the
    luma's dimensions and format, and stores it converted to the luma's
    depth, replacing whatever line mask was assigned before and leaving the
    cache alone.  What it returns is what [line_mask] then reads: under
    mirror border handling the stored clip itself. *)
Theorem default_line_mask_effects
    (self : Rescale.t) (clip previous : option VideoNode) (scaler : Scaler) :
  let luma := RescaleBase.clipy (Rescale.base self) in
  let result := default_line_mask edgemask Maximum Minimum scale_to_format self clip scaler in
  let reference := match clip with Some c => c | None => luma end in
  let stored :=
    Depth (scale_to_format scaler (Minimum (Maximum (edgemask reference)))
             (width luma) (height luma) (format luma))
          (bits luma) in
  result = Rescale.line_mask (Rescale.set__line_mask (Some stored) self)
  /\ default_line_mask edgemask Maximum Minimum scale_to_format
       (Rescale.set_line_mask previous self) clip scaler = result
  /\ RescaleBase.__dict__ (Rescale.base (snd result))
     = RescaleBase.__dict__ (Rescale.base self)
  /\ match RescaleBase.border_handling (Rescale.base self) with
     | MIRROR => result = (stored, Rescale.set__line_mask (Some stored) self)
     | _ => exists expr, fst result = NormExpr stored expr
                         /\ Rescale._line_mask (snd result) = Some (NormExpr stored expr)
     end.
Proof.
  cbv zeta. unfold default_line_mask, Rescale.line_mask. cbn.
  destruct previous; cbn;
    destruct (RescaleBase.border_handling (Rescale.base self)); cbn;
    repeat split; eexists; split; reflexivity.
Qed.

End DefaultMaskProperties.

Lemma default_credit_mask_effects_checked :
  let result :=
    default_credit_mask Scenario.based_diff_mask Example.fresh None None (216 # 1000) 4 in
  is_Some (RescaleBase.__dict__ (Rescale.base (snd result)) !! "rescale")
  /\ is_Some (RescaleBase.__dict__ (Rescale.base (snd result)) !! "descale")
  /\ truthy (Rescale._credit_mask (snd result)) = true.
Proof.
  pose proof (default_credit_mask_effects Scenario.based_diff_mask Example.fresh
                None None (216 # 1000) 4) as W.
  cbv zeta in W. destruct W as (W1 & W2 & _).
  cbv zeta. split; [rewrite W2; eexists; reflexivity|].
  rewrite W1. split; [vm_compute; eexists; reflexivity|reflexivity].
Defined.

(** ** Construction of a [Rescale] *)

(** X20.  [Rescale.__init__] has three sources of failure, in this order:
    [ScalingArgs.from_args], whose error it raises when that call fails;
    [RescaleBase.__init__]; and, when the crop test holds, the engine's
    [std.Crop] on the luma plane, which refuses a negative amount and a crop
    that leaves no column or no row.  The object it builds has no mask and
    nothing cached, keeps the clip it was given and the arguments
    [from_args] returned, and has the luma plane cropped exactly when the
    crop test holds, by amounts the engine accepts, while the chroma planes
    are those of the clip, not cropped. *)
Theorem rescale_construction_outcome
    (from_args : from_args_t) (clip : VideoNode) (target_height : Number)
    (kernel : Kernel) (upscaler downscaler : Scaler)
    (target_width : option Number) (base_height base_width : option Z)
    (crop : CropRel) (shift : Q * Q) (field_based : option FieldBased)
    (border_handling : Z) :
  let requested :=
    from_args clip target_height target_width base_height base_width
      (fst shift) (snd shift) crop "hw" in
  let base_init :=
    RescaleBase.__init__ clip kernel upscaler downscaler field_based border_handling in
  let applied := tuple_gt (crop_tuple crop) [0; 0; 0; 0] in
  let l := crop_left crop in
  let r := crop_right crop in
  let t := crop_top crop in
  let b := crop_bottom crop in
  match Rescale.__init__ from_args clip target_height kernel upscaler downscaler
          target_width base_height base_width crop shift field_based border_handling with
  | Ok self =>
      requested = Ok (RescaleBase.descale_args (Rescale.base self))
      /\ check_variable clip = Ok tt
      /\ Rescale._pre self = clip
      /\ Rescale._crop self = crop
      /\ Rescale._line_mask self = None
      /\ Rescale._credit_mask self = None
      /\ Rescale._ignore_mask self = None
      /\ RescaleBase.__dict__ (Rescale.base self) = ∅
      /\ (if applied
          then RescaleBase.clipy (Rescale.base self) = Crop (get_y clip) l r t b
               /\ 0 <= l /\ 0 <= r /\ 0 <= t /\ 0 <= b
               /\ l + r < width clip /\ t + b < height clip
          else RescaleBase.clipy (Rescale.base self) = get_y clip)
      /\ get_y clip :: RescaleBase.chroma (Rescale.base self) = split clip
  | Error e =>
      requested = Error e
      \/ (exists args, requested = Ok args /\ base_init = Error e)
      \/ (exists args attributes,
            requested = Ok args /\ base_init = Ok attributes
            /\ applied = true
            /\ std_Crop (get_y clip) l r t b = Error e
            /\ (l < 0 \/ r < 0 \/ t < 0 \/ b < 0
                \/ width clip <= l + r \/ height clip <= t + b))
  end.
Proof.
  cbv zeta.
  destruct (Rescale.__init__ from_args clip target_height kernel upscaler downscaler
              target_width base_height base_width crop shift field_based border_handling)
    as [self|e] eqn:E.
  - destruct (rescale_construction_shape _ _ _ _ _ _ _ _ _ _ _ _ _ _ E)
      as (H1 & H2 & H3 & H4 & H5 & H6 & H7 & H8 & H9 & H10 & H11 & _).
    cbv zeta in H7.
    repeat (split; [assumption|]).
    split; [|assumption].
    destruct (tuple_gt (crop_tuple crop) [0; 0; 0; 0]); [split|]; assumption.
  - unfold Rescale.__init__ in E.
    destruct (from_args _ _ _ _ _ _ _ _ _) as [a|e']; [|left; congruence].
    right.
    pose proof (base_init_cases clip kernel upscaler downscaler
                  field_based border_handling) as B.
    destruct (RescaleBase.__init__ clip kernel upscaler downscaler field_based
                border_handling) as [attributes|e'];
      [|left; exists a; split; [reflexivity|congruence]].
    right. exists a, attributes.
    destruct B as (_ & _ & _ & Hy & _).
    cbn [Rescale._crop Rescale.base RescaleBase.clipy] in E. rewrite Hy in E.
    destruct (tuple_gt (crop_tuple crop) [0; 0; 0; 0]); [|discriminate].
    pose proof (std_Crop_cases (get_y clip) (crop_left crop) (crop_right crop)
                  (crop_top crop) (crop_bottom crop)) as C.
    destruct (get_y_dims clip) as [Wy Hgy]. rewrite Wy, Hgy in C.
    destruct (std_Crop _ _ _ _ _) as [cropped|e']; [discriminate|].
    injection E as <-. destruct C as [_ C].
    repeat split; assumption.
Qed.

(** A crop wider than the frame: the constructor fails in [std.Crop]. *)
Lemma rescale_construction_outcome_witness :
  match Rescale.__init__ (Example.from_args Example.args_720) Example.clip (Int 720)
          Example.bicubic Example.artcnn Example.hermite None None None
          Example.crop_too_wide (0 # 1, 0 # 1)%Q None 0 with
  | Ok _ => False
  | Error e => e = ExternalError "vapoursynth.Error"
  end.
Proof.
  pose proof (rescale_construction_outcome (Example.from_args Example.args_720)
                Example.clip (Int 720) Example.bicubic Example.artcnn Example.hermite
                None None None Example.crop_too_wide (0 # 1, 0 # 1)%Q None 0) as W.
  cbv zeta in W.
  destruct (Rescale.__init__ _ _ _ _ _ _ _ _ _ _ _ _ _) as [self|e].
  - destruct W as (_ & _ & _ & _ & _ & _ & _ & _ & W & _).
    change (tuple_gt (crop_tuple Example.crop_too_wide) [0; 0; 0; 0]) with true in W.
    destruct W as (_ & _ & _ & _ & _ & W & _). vm_compute in W. discriminate.
  - destruct W as [W|[(args & _ & W)|(args & attributes & _ & _ & _ & W & _)]].
    + discriminate.
    + vm_compute in W. discriminate.
    + vm_compute in W. now injection W as <-.
Defined.

(** ** What a read can change *)

Lemma configuration_cache_store (k : string) (v : VideoNode) (self : Rescale.t) :
  configuration (cache_store k v self) = configuration self.
Proof. reflexivity. Qed.

Lemma configuration_generate_descale (self : Rescale.t) (clip : VideoNode) :
  configuration (snd (Rescale._generate_descale self clip)) = configuration self
  /\ Rescale._line_mask (snd (Rescale._generate_descale self clip))
     = Rescale._line_mask self.
Proof.
  rewrite rescale_generate_descale_state.
  destruct (Rescale._ignore_mask self); split; reflexivity.
Qed.

Lemma configuration_descale (self : Rescale.t) :
  configuration (snd (RescaleBase.descale self)) = configuration self
  /\ Rescale._line_mask (snd (RescaleBase.descale self)) = Rescale._line_mask self.
Proof.
  destruct (RescaleBase.__dict__ (Rescale.base self) !! "descale") eqn:E.
  - unfold RescaleBase.descale. rewrite (cached_property_hit _ _ _ _ E). now split.
  - unfold RescaleBase.descale. rewrite (cached_property_miss_eq _ _ _ E).
    cbn [snd fst RescaleBase.self_generate_descale Rescale.methods_t
         RescaleBase.attrs Rescale.self_t].
    rewrite configuration_cache_store.
    destruct (configuration_generate_descale self
                (RescaleBase.clipy (Rescale.base self))) as [C L].
    split; [exact C|]. unfold cache_store. cbn. exact L.
Qed.

Lemma configuration_generate_upscale (self : Rescale.t) (clip : VideoNode) :
  configuration (snd (Rescale._generate_upscale self clip)) = configuration self.
Proof.
  rewrite generate_upscale_stages. cbv zeta. rewrite merge_line_mask_eq.
  destruct (truthy (Rescale._line_mask self)
            || truthy (RescaleBase.border_handling (Rescale.base self)))%bool;
    rewrite merge_credit_mask_eq;
    match goal with |- context [Rescale._credit_mask ?s] =>
      destruct (Rescale._credit_mask s) end;
    reflexivity.
Qed.

(** X21.  A read of a derived property changes nothing of the object but
    the cached entries, the mode of the scaling arguments and the line mask:
    the planes, the kernel and scalers, the policies, the crop, the original
    clip, the credit and ignore masks and the other scaling arguments stay as
    they were.  Only a read of [upscale] can write the line mask. *)
Theorem reads_keep_configuration (self : Rescale.t) :
  (configuration (snd (RescaleBase.descale self)) = configuration self
   /\ Rescale._line_mask (snd (RescaleBase.descale self)) = Rescale._line_mask self)
  /\ (configuration (snd (RescaleBase.rescale self)) = configuration self
      /\ Rescale._line_mask (snd (RescaleBase.rescale self)) = Rescale._line_mask self)
  /\ (configuration (snd (RescaleBase.doubled self)) = configuration self
      /\ Rescale._line_mask (snd (RescaleBase.doubled self)) = Rescale._line_mask self)
  /\ configuration (snd (RescaleBase.upscale self)) = configuration self.
Proof.
  pose proof (configuration_descale self) as D.
  assert (R : configuration (snd (RescaleBase.rescale self)) = configuration self
              /\ Rescale._line_mask (snd (RescaleBase.rescale self))
                 = Rescale._line_mask self).
  { destruct (RescaleBase.__dict__ (Rescale.base self) !! "rescale") eqn:E.
    - unfold RescaleBase.rescale. rewrite (cached_property_hit _ _ _ _ E). now split.
    - rewrite (rescale_miss self E). cbn [snd]. rewrite configuration_cache_store.
      split; [apply D|]. unfold cache_store. cbn. apply D. }
  assert (B : configuration (snd (RescaleBase.doubled self)) = configuration self
              /\ Rescale._line_mask (snd (RescaleBase.doubled self))
                 = Rescale._line_mask self).
  { destruct (RescaleBase.__dict__ (Rescale.base self) !! "doubled") eqn:E.
    - unfold RescaleBase.doubled. rewrite (cached_property_hit _ _ _ _ E). now split.
    - rewrite (doubled_miss self E). cbn [snd]. rewrite configuration_cache_store.
      split; [apply D|]. unfold cache_store. cbn. apply D. }
  split; [exact D|]. split; [exact R|]. split; [exact B|].
  destruct (RescaleBase.__dict__ (Rescale.base self) !! "upscale") eqn:E.
  - unfold RescaleBase.upscale. now rewrite (cached_property_hit _ _ _ _ E).
  - unfold RescaleBase.upscale. rewrite (cached_property_miss_eq _ _ _ E).
    cbn [snd]. rewrite configuration_cache_store.
    destruct (RescaleBase.doubled self) as [d s1]. cbn [snd] in B.
    cbn [RescaleBase.self_generate_upscale Rescale.methods_t].
    pose proof (configuration_generate_upscale s1 d) as U.
    destruct (Rescale._generate_upscale s1 d) as [u s2]. cbn [snd] in *.
    rewrite U. apply B.
Qed.

(** The line mask does change on a read of [upscale] under a border
    handling other than mirror. *)
Lemma upscale_read_writes_line_mask :
  Rescale._line_mask Scenario.zero_padded = None
  /\ is_Some (Rescale._line_mask (snd (RescaleBase.upscale Scenario.zero_padded)))
  /\ Rescale._line_mask (snd (RescaleBase.upscale Example.fresh)) = None.
Proof. repeat split. vm_compute. eexists; reflexivity. Qed.
